(** * The CMIS client of the document registry (drc/cmis/client.py)

    A shallow embedding of [CMISDRCClient]: the document operations
    (create, read, update, checkout) and the changelog synchronisation,
    over an abstract CMIS repository and a local database. *)

From stdpp Require Import base option list strings pretty gmap.
From Stdlib Require Import ZArith Ascii.

Local Open Scope string_scope.
Local Open Scope Z_scope.
Local Open Scope list_scope.

(** ** Python values and exceptions *)

(** Property values as they occur in [properties] dictionaries. *)
Inductive pyval :=
  | PNone
  | PStr (s : string)
  | PInt (z : Z).

#[global] Instance pyval_eq_dec : EqDecision pyval.
Proof. solve_decision. Defined.

(** A properties dictionary.  Python's [d.get(key)] is [pyget]. *)
Abbreviation props := (gmap string pyval).

Definition pyget (d : props) (key : string) : pyval :=
  default PNone (d !! key).

(** The exceptions the client raises, catches or lets through. *)
Inductive exn :=
  | ImproperlyConfigured
  | SyncException (msg : string)
  | DocumentExistsError
  | DocumentDoesNotExistError
  | DocumentConflictException
  | DocumentLockedException
  | ObjectNotFoundException
  | UpdateConflictException
  | DoesNotExist
  | MultipleObjectsReturned
  | AttributeError
  | IndexError
  | KeyError
  | ValueError
  | DatabaseError
  | RuntimeError (msg : string).

#[global] Instance exn_eq_dec : EqDecision exn.
Proof. solve_decision. Defined.

Inductive result (A : Type) :=
  | Ok (a : A)
  | Raise (e : exn).
Arguments Ok {A} a.
Arguments Raise {A} e.

(** [d[key]]: a missing key raises [KeyError]. *)
Definition pyindex (d : props) (key : string) : result pyval :=
  match d !! key with
  | Some v => Ok v
  | None => Raise KeyError
  end.

(** ** Strings *)

(** [s.split(sep)] for a one-character separator. *)
Fixpoint split_aux (sep : ascii) (s : string) (cur : string) : list string :=
  match s with
  | EmptyString => [String.rev cur]
  | String c s' =>
      if Ascii.eqb c sep then String.rev cur :: split_aux sep s' EmptyString
      else split_aux sep s' (String c cur)
  end.

Definition split (sep : ascii) (s : string) : list string :=
  split_aux sep s EmptyString.

(** [l[-2]]. *)
Definition index_minus2 {A} (l : list A) : result A :=
  match rev l with
  | _ :: x :: _ => Ok x
  | _ => Raise IndexError
  end.

(** [l[0]]. *)
Definition index0 {A} (l : list A) : result A :=
  match l with
  | x :: _ => Ok x
  | [] => Raise IndexError
  end.

(** [s.rsplit(';')[0]]: without a limit [rsplit] cuts at every
    separator, so the first piece is all that precedes the first one. *)
Definition rsplit_head (s : string) : string :=
  match split ";" s with
  | x :: _ => x
  | [] => s
  end.

(** Truth value of an optional string ([None] and [''] are false). *)
Definition truthy (o : option string) : bool :=
  match o with
  | Some (String _ _) => true
  | _ => false
  end.

(** ** The CMIS repository (cmislib) *)

(** Objects of the repository are referred to by their object id. *)
Abbreviation cmis_object := string (only parsing).

Record ChangeEntry := {
  ce_id : string;
  changeType : string;
  objectId : string;
}.

(** The calls the client makes on [cmislib], over a repository state
    [R].  Reads are functions of the state; calls that change the
    repository return the new state.  A call that raises leaves the
    repository as it was. *)
Class Repository (R : Type) := {
  (* self._repo.reload() *)
  repo_reload : R → R;
  (* self._repo.info, with the token already an integer *)
  repo_info : R → gmap string Z;
  (* self._repo.query(query) *)
  repo_query : string → R → list cmis_object;
  (* self._repo.getObject(object_id) *)
  repo_getObject : string → R → result cmis_object;
  (* self._repo.getObjectByPath(path) *)
  repo_getObjectByPath : string → R → result cmis_object;
  (* self._repo.getContentChanges(changeLogToken, includeProperties, maxItems) *)
  repo_getContentChanges : Z → bool → Z → R → list ChangeEntry * R;
  (* self._repo.createDocument(name, properties, contentFile, contentType, parentFolder) *)
  repo_createDocument :
    string → props → string → option string → cmis_object → R → cmis_object * R;
  (* self._root_folder *)
  root_folder : cmis_object;
  (* obj.properties *)
  obj_properties : cmis_object → R → props;
  (* child.name *)
  obj_name : cmis_object → R → string;
  (* doc.getObjectId() *)
  obj_getObjectId : cmis_object → R → string;
  (* folder.getChildren() *)
  folder_getChildren : cmis_object → R → list cmis_object;
  (* folder.createFolder(name, properties) *)
  folder_createFolder : cmis_object → string → props → R → cmis_object * R;
  (* doc.getLatestVersion() *)
  doc_getLatestVersion : cmis_object → R → cmis_object;
  (* doc.getPrivateWorkingCopy() *)
  doc_getPrivateWorkingCopy : cmis_object → R → option cmis_object;
  (* doc.getContentStream() *)
  doc_getContentStream : cmis_object → R → string;
  (* doc.setContentStream(stream, content_type) *)
  doc_setContentStream : cmis_object → string → option string → R → R;
  (* doc.updateProperties(properties) *)
  doc_updateProperties : cmis_object → props → R → result R;
  (* doc.checkout() *)
  doc_checkout : cmis_object → R → result (cmis_object * R);
  (* doc.cancelCheckout() *)
  doc_cancelCheckout : cmis_object → R → R;
  (* doc.checkin() *)
  doc_checkin : cmis_object → R → R;
  (* doc.getPaths() *)
  doc_getPaths : cmis_object → R → list string;
}.

(** ** The local database (Django models) *)

Inductive ChangeLogStatus := in_progress | completed.

#[global] Instance ChangeLogStatus_eq_dec : EqDecision ChangeLogStatus.
Proof. solve_decision. Defined.

Record ChangeLog := {
  cl_pk : Z;
  cl_token : Z;
  cl_status : ChangeLogStatus;
}.

#[global] Instance ChangeLog_eq_dec : EqDecision ChangeLog.
Proof. solve_decision. Defined.

Record EnkelvoudigInformatieObject := {
  pk : option Z;
  identificatie : string;
  titel : string;
  _object_id : string;
  velden : props;
}.

Record database := {
  changelogs : list ChangeLog;
  documenten : list EnkelvoudigInformatieObject;
}.

(** The state the client works on: the remote repository and the local
    database. *)
Record world (R : Type) := World {
  w_repo : R;
  w_db : database;
}.
Arguments World {R} _ _.
Arguments w_repo {R} _.
Arguments w_db {R} _.

(** ** Parts of the project the client imports *)

(** Modelled from the spec: the change types of [choices.CMISChangeType],
    which the spec names [created], [updated], [deleted] and
    [security]. *)
Module CMISChangeType.
Definition created : string := "created".
Definition updated : string := "updated".
Definition deleted : string := "deleted".
Definition security : string := "security".
End CMISChangeType.

(** One level of the folder path that [settings.CMIS_UPLOAD_TO] yields. *)
Record FolderConfig := {
  fc_type : option string;
  fc_name : option string;
}.

(** The uploaded content handed to [update_zaakdocument]. *)
Record Inhoud := {
  bestandsnaam : string;
  to_cmis : string;
}.

(** Settings, and the declarations of [choices], [query], [utils],
    [abstract] and the data model that the client uses: they are
    parameters of the development. *)
Class Omgeving := {
  (* settings.CMIS_SENDER_PROPERTY; a false value is None *)
  CMIS_SENDER_PROPERTY : option string;
  (* import_string(settings.CMIS_UPLOAD_TO) *)
  upload_to : string → list FolderConfig;
  (* django.utils.text.slugify *)
  slugify : string → string;
  (* DRCClient.TEMP_FOLDER_NAME *)
  TEMP_FOLDER_NAME : string;
  (* CMISObjectType.edc and CMISObjectType.zaak_folder *)
  CMISObjectType_edc : string;
  CMISObjectType_zaak_folder : string;
  (* CMISDRCClient.document_query, a CMISQuery, applied to an identification *)
  document_query : string → string;
  (* utils.get_cmis_object_id *)
  get_cmis_object_id : string → string;
  (* EnkelvoudigInformatieObject.get_cmis_properties *)
  get_cmis_properties : EnkelvoudigInformatieObject → props;
  (* the field values EnkelvoudigInformatieObject.update_cmis_properties assigns *)
  apply_cmis_properties :
    props → EnkelvoudigInformatieObject → result EnkelvoudigInformatieObject;
}.

(** ** Queries on the local database *)

Definition max_pk (l : list ChangeLog) : Z :=
  foldr (λ c m, Z.max (cl_pk c) m) 0 l.

(** Modelled from the spec: [ChangeLog.objects.create(token=...)] of the
    absent [models.ChangeLog]; a run record starts with status
    [in_progress] and gets the next primary key. *)
Definition ChangeLog_create (token : Z) (d : database) : ChangeLog * database :=
  let c := {| cl_pk := max_pk (changelogs d) + 1; cl_token := token;
              cl_status := in_progress |} in
  (c, {| changelogs := changelogs d ++ [c]; documenten := documenten d |}).

(** [change_log.delete()]. *)
Definition ChangeLog_delete (c : ChangeLog) (d : database) : database :=
  {| changelogs := filter (λ x, cl_pk x ≠ cl_pk c) (changelogs d);
     documenten := documenten d |}.

(** [change_log.save()]. *)
Definition ChangeLog_save (c : ChangeLog) (d : database) : database :=
  {| changelogs :=
       (λ x, if decide (cl_pk x = cl_pk c) then c else x) <$> changelogs d;
     documenten := documenten d |}.

(** [ChangeLog.objects.exclude(pk=pk).filter(status=status).count()]. *)
Definition ChangeLog_count_other (pk0 : Z) (s : ChangeLogStatus) (d : database) : Z :=
  Z.of_nat (length (filter (λ x, cl_status x = s)
                      (filter (λ x, cl_pk x ≠ pk0) (changelogs d)))).

(** [ChangeLog.objects.filter(status=status).last()]. *)
Definition ChangeLog_last (s : ChangeLogStatus) (d : database) : option ChangeLog :=
  last (filter (λ x, cl_status x = s) (changelogs d)).

(** No run record has the status [in_progress]. *)
Definition no_run_in_progress (d : database) : Prop :=
  filter (λ x, cl_status x = in_progress) (changelogs d) = [].

(** The token of the last completed run, 0 without one (lines 352-353). *)
Definition last_completed_token (d : database) : Z :=
  match ChangeLog_last completed d with
  | Some l => cl_token l
  | None => 0
  end.

(** [EnkelvoudigInformatieObject.objects.get(identificatie=v)]. *)
Definition EIO_get (v : pyval) (d : database) : result EnkelvoudigInformatieObject :=
  match filter (λ x, PStr (identificatie x) = v) (documenten d) with
  | [] => Raise DoesNotExist
  | [x] => Ok x
  | _ => Raise MultipleObjectsReturned
  end.

(** [EnkelvoudigInformatieObject.objects.filter(_object_id=oid).delete()]:
    the number of rows deleted and the database without them. *)
Definition EIO_delete (oid : string) (d : database) : Z * database :=
  (Z.of_nat (length (filter (λ x, _object_id x = oid) (documenten d))),
   {| changelogs := changelogs d;
      documenten := filter (λ x, _object_id x ≠ oid) (documenten d) |}).

(** [instance.save()] of a document: the row with its primary key is
    written, or added when there is none; an instance without a primary
    key is added under the next one. *)
Definition EIO_save (x : EnkelvoudigInformatieObject) (d : database) : database :=
  let rows := documenten d in
  let next := foldr (λ y m, Z.max (default 0 (pk y)) m) 0 rows + 1 in
  let stored k := {| pk := Some k; identificatie := identificatie x; titel := titel x;
                     _object_id := _object_id x; velden := velden x |} in
  {| changelogs := changelogs d;
     documenten :=
       match pk x with
       | Some k =>
           if bool_decide (Exists (λ y, pk y = Some k) rows)
           then (λ y, if decide (pk y = Some k) then x else y) <$> rows
           else rows ++ [x]
       | None => rows ++ [stored next]
       end |}.

(** Modelled from the spec: [edc.update_cmis_properties(properties,
    commit)] of the absent data model applies the store's property
    values onto the local record, and saves it when [commit] is set. *)
Definition update_cmis_properties `{Omgeving} (new_props : props) (commit : bool)
    (edc : EnkelvoudigInformatieObject) (d : database) : result database :=
  match apply_cmis_properties new_props edc with
  | Raise e => Raise e
  | Ok edc' => Ok (if commit then EIO_save edc' d else d)
  end.

(** ** Synchronisation with the changelog: [CMISDRCClient.sync] *)

Record counters := {
  created : Z;
  updated : Z;
  deleted : Z;
  security : Z;
  failed : Z;
}.

Definition zero_counters : counters :=
  {| created := 0; updated := 0; deleted := 0; security := 0; failed := 0 |}.

Definition incr_created (c : counters) : counters :=
  {| created := created c + 1; updated := updated c; deleted := deleted c;
     security := security c; failed := failed c |}.
Definition incr_updated (c : counters) : counters :=
  {| created := created c; updated := updated c + 1; deleted := deleted c;
     security := security c; failed := failed c |}.
Definition incr_deleted (c : counters) : counters :=
  {| created := created c; updated := updated c; deleted := deleted c + 1;
     security := security c; failed := failed c |}.
Definition incr_security (c : counters) : counters :=
  {| created := created c; updated := updated c; deleted := deleted c;
     security := security c + 1; failed := failed c |}.
Definition incr_failed (c : counters) : counters :=
  {| created := created c; updated := updated c; deleted := deleted c;
     security := security c; failed := failed c + 1 |}.

(** What [sync] hands back: [None], or a dictionary in key order. *)
Inductive pyret :=
  | RNone
  | RDict (items : list (string * Z)).

(** The [OrderedDict] of the last statement of [sync]. *)
Definition counters_dict (c : counters) : pyret :=
  RDict [ (CMISChangeType.created, created c);
          (CMISChangeType.updated, updated c);
          (CMISChangeType.deleted, deleted c);
          (CMISChangeType.security, security c);
          ("failed", failed c) ].

(** The variables the loop over the change entries updates. *)
Record loop_state := LoopState {
  ls_counters : counters;
  ls_cache : gset string;
  ls_db : database;
}.

Section Sync.
Context {R : Type} `{!Repository R} `{!Omgeving}.

(** The body of the [try] statement of one change entry (lines
    373-412).  [Ok] is normal completion, also through [continue];
    [Raise] is an exception that reaches [except Exception]. *)
Definition dispatch (dryrun : bool) (r : R) (change_type object_id : string)
    (c : counters) (d : database) : result (counters * database) :=
  if bool_decide (change_type = CMISChangeType.created)
     || bool_decide (change_type = CMISChangeType.updated) then
    match repo_getObject object_id r with
    | Raise ObjectNotFoundException => Ok (incr_failed c, d)
    | Raise e => Raise e
    | Ok dms_document =>
        let dms_object_type :=
          pyget (obj_properties dms_document r) "cmis:objectTypeId" in
        if bool_decide (dms_object_type = PStr CMISObjectType_edc) then
          if bool_decide (change_type = CMISChangeType.updated) then
            let zs_document_id :=
              pyget (obj_properties dms_document r) "zsdms:documentIdentificatie" in
            match EIO_get zs_document_id d with
            | Raise DoesNotExist => Ok (incr_failed c, d)
            | Raise e => Raise e
            | Ok edc =>
                match update_cmis_properties (obj_properties dms_document r)
                        (negb dryrun) edc d with
                | Raise e => Raise e
                | Ok d' => Ok (incr_updated c, d')
                end
            end
          else
            match index0 (doc_getPaths dms_document r) with
            | Raise e => Raise e
            | Ok path =>
                match index_minus2 (split "/" path) with
                | Raise e => Raise e
                | Ok zaak_folder => Ok (incr_created c, d)
                end
            end
        else Ok (c, d)
    end
  else
    if bool_decide (change_type = CMISChangeType.deleted) then
      if negb dryrun then
        let '(delete_count, d') := EIO_delete object_id d in
        if (delete_count =? 0)%Z then Ok (incr_failed c, d')
        else Ok (incr_deleted c, d')
      else
        if bool_decide (change_type = CMISChangeType.security) then
          Ok (incr_security c, d)
        else Ok (incr_failed c, d)
    else Ok (c, d).

(** One turn of the [for] loop (lines 366-419). *)
Definition process_entry (dryrun : bool) (r : R) (s : loop_state)
    (change_entry : ChangeEntry) : loop_state :=
  let change_type := changeType change_entry in
  let object_id := get_cmis_object_id (objectId change_entry) in
  let cache_key := object_id +:+ "-" +:+ change_type in
  if bool_decide (cache_key ∈ ls_cache s) then s
  else
    let cache := {[cache_key]} ∪ ls_cache s in
    match dispatch dryrun r change_type object_id (ls_counters s) (ls_db s) with
    | Ok (c, d) => LoopState c cache d
    | Raise _ => LoopState (incr_failed (ls_counters s)) cache (ls_db s)
    end.

(** [change_log.status = ...; change_log.save()] (lines 422-423):
    assigning an attribute of [None] raises [AttributeError]. *)
Definition complete_run (change_log : option ChangeLog) (d : database) : result database :=
  match change_log with
  | None => Raise AttributeError
  | Some c =>
      Ok (ChangeLog_save {| cl_pk := cl_pk c; cl_token := cl_token c;
                            cl_status := completed |} d)
  end.

(** The body of [sync], without its decorator. *)
Definition sync_body (dryrun : bool) (w : world R) : result pyret * world R :=
  let r := repo_reload (w_repo w) in
  match repo_info r !! "latestChangeLogToken" with
  | None => (Raise ImproperlyConfigured, World r (w_db w))
  | Some dms_change_log_token =>
      if negb dryrun then
        let '(change_log, d) := ChangeLog_create dms_change_log_token (w_db w) in
        if (0 <? ChangeLog_count_other (cl_pk change_log) in_progress d)%Z then
          (Raise (SyncException "A synchronization process is already running."),
           World r (ChangeLog_delete change_log d))
        else
          let change_log : option ChangeLog := None in
          let last_change_log := ChangeLog_last completed d in
          let last_zs_change_log_token :=
            match last_change_log with
            | Some l => cl_token l
            | None => 0
            end in
          let max_items := dms_change_log_token - last_zs_change_log_token in
          if (max_items <? 0)%Z then
            (Raise (SyncException "The DRC change log token is older than our records."),
             World r d)
          else if (max_items =? 0)%Z then (Ok (RDict []), World r d)
          else
            let '(result_set, r') :=
              repo_getContentChanges last_zs_change_log_token true max_items r in
            let s := foldl (process_entry dryrun r')
                       (LoopState zero_counters ∅ d) result_set in
            if negb dryrun then
              match complete_run change_log (ls_db s) with
              | Raise e => (Raise e, World r' (ls_db s))
              | Ok d' => (Ok (counters_dict (ls_counters s)), World r' d')
              end
            else (Ok (counters_dict (ls_counters s)), World r' (ls_db s))
      else (Ok RNone, World r (w_db w))
  end.

(** [@transaction.atomic]: when the body raises, what it wrote to the
    database is rolled back. *)
Definition atomic {A} (body : world R → result A * world R) (w : world R)
    : result A * world R :=
  match body w with
  | (Ok a, w') => (Ok a, w')
  | (Raise e, w') => (Raise e, World (w_repo w') (w_db w))
  end.

Definition sync (dryrun : bool) : world R → result pyret * world R :=
  atomic (sync_body dryrun).

End Sync.

(** ** Folders and documents *)

(** A list comprehension whose element expression may raise. *)
Fixpoint result_map {A B} (f : A → result B) (l : list A) : result (list B) :=
  match l with
  | [] => Ok []
  | x :: l' =>
      match f x with
      | Raise e => Raise e
      | Ok y =>
          match result_map f l' with
          | Raise e => Raise e
          | Ok ys => Ok (y :: ys)
          end
      end
  end.

(** [sep.join(bits)]. *)
Fixpoint join (sep : string) (bits : list string) : string :=
  match bits with
  | [] => ""
  | [b] => b
  | b :: bits' => b +:+ sep +:+ join sep bits'
  end.

(** Python's [None] for an absent string. *)
Definition pystr (o : option string) : pyval :=
  match o with
  | Some s => PStr s
  | None => PNone
  end.

Section Documents.
Context {R : Type} `{!Repository R} `{!Omgeving}.

Definition _get_or_create_folder (name : string) (properties : option props)
    (parent : option cmis_object) (r : R) : (cmis_object * bool) * R :=
  let parent := default root_folder parent in
  let existing :=
    head (filter (λ child, obj_name child r = name) (folder_getChildren parent r)) in
  match existing with
  | Some existing => ((existing, false), r)
  | None =>
      let '(folder, r') := folder_createFolder parent name (default ∅ properties) r in
      ((folder, true), r')
  end.

Definition get_folder_name (zaak_url : string) (folder_config : FolderConfig)
    : result string :=
  let name := "" in
  let check :=
    if bool_decide (fc_type folder_config = Some CMISObjectType_zaak_folder)
    then Ok (slugify zaak_url)
    else if negb (truthy (fc_name folder_config)) then Raise ValueError
    else Ok name in
  match check with
  | Raise e => Raise e
  | Ok name =>
      Ok (if truthy (fc_name folder_config)
          then default "" (fc_name folder_config) else name)
  end.

Definition _get_zaakfolder (zaak_url : string) (r : R) : result cmis_object :=
  match result_map (get_folder_name zaak_url) (upload_to zaak_url) with
  | Raise e => Raise e
  | Ok bits =>
      let path := "/" +:+ join "/" bits in
      repo_getObjectByPath path r
  end.

Definition _get_cmis_doc (document : EnkelvoudigInformatieObject)
    (checkout_id : option string) (r : R) : result cmis_object :=
  let query := document_query (identificatie document) in
  let result_set := repo_query query r in
  match result_set with
  | [] => Raise DocumentDoesNotExistError
  | doc :: _ =>
      let doc := doc_getLatestVersion doc r in
      match checkout_id with
      | None => Ok doc
      | Some checkout_id =>
          match doc_getPrivateWorkingCopy doc r with
          | None => Raise DocumentConflictException
          | Some pwc =>
              match pyindex (obj_properties pwc r) "cmis:versionSeriesCheckedOutId" with
              | Raise e => Raise e
              | Ok v =>
                  if bool_decide (v = PStr checkout_id) then Ok doc
                  else Raise DocumentConflictException
              end
          end
      end
  end.

Definition _build_cmis_doc_properties (document : EnkelvoudigInformatieObject)
    (filename : option string) : props :=
  let properties := get_cmis_properties document in
  let properties := <["cmis:objectTypeId" := PStr CMISObjectType_edc]> properties in
  match filename with
  | Some filename => <["cmis:name" := PStr filename]> properties
  | None => properties
  end.

(** [document._object_id = ...; document.save(update_fields=['_object_id'])]:
    only that column of the row is written.  Django refuses such a save
    for an instance without a primary key, and raises when no row was
    written. *)
Definition save_object_id (document : EnkelvoudigInformatieObject) (oid : string)
    (d : database) : result (EnkelvoudigInformatieObject * database) :=
  let set x := {| pk := pk x; identificatie := identificatie x; titel := titel x;
                  _object_id := oid; velden := velden x |} in
  match pk document with
  | None => Raise ValueError
  | Some k =>
      if bool_decide (Exists (λ y, pk y = Some k) (documenten d)) then
        Ok (set document,
            {| changelogs := changelogs d;
               documenten :=
                 (λ y, if decide (pk y = Some k) then set y else y) <$> documenten d |})
      else Raise DatabaseError
  end.

(** The created document is returned together with the instance, whose
    [_object_id] the method assigns. *)
Definition maak_zaakdocument_met_inhoud (document : EnkelvoudigInformatieObject)
    (zaak_url filename sender stream content_type : option string) (w : world R)
    : result (cmis_object * EnkelvoudigInformatieObject) * world R :=
  let r := w_repo w in
  match _get_cmis_doc document None r with
  | Ok _ => (Raise DocumentExistsError, w)
  | Raise DocumentDoesNotExistError =>
      let stream := default "" stream in
      let folder :=
        match zaak_url with
        | None =>
            let '((zaakfolder, _), r1) :=
              _get_or_create_folder TEMP_FOLDER_NAME None None r in
            (Ok zaakfolder, r1)
        | Some zaak_url => (_get_zaakfolder zaak_url r, r)
        end in
      match folder with
      | (Raise e, r1) => (Raise e, World r1 (w_db w))
      | (Ok zaakfolder, r1) =>
          let properties := _build_cmis_doc_properties document filename in
          let properties :=
            match CMIS_SENDER_PROPERTY with
            | Some key => <[key := pystr sender]> properties
            | None => properties
            end in
          let '(_doc, r2) :=
            repo_createDocument (titel document) properties stream content_type
              zaakfolder r1 in
          match save_object_id document (rsplit_head (obj_getObjectId _doc r2)) (w_db w) with
          | Raise e => (Raise e, World r2 (w_db w))
          | Ok (document', d') => (Ok (_doc, document'), World r2 d')
          end
      end
  | Raise e => (Raise e, w)
  end.

Definition maak_zaakdocument (document : EnkelvoudigInformatieObject)
    (zaak_url filename sender : option string) (w : world R) :=
  maak_zaakdocument_met_inhoud document zaak_url filename sender None None w.

(** The file name is the value of [cmis:name]; an empty [BytesIO] is the
    empty string. *)
Definition geef_inhoud (document : EnkelvoudigInformatieObject) (r : R)
    : result (pyval * string) :=
  match _get_cmis_doc document None r with
  | Raise DocumentDoesNotExistError => Ok (PNone, "")
  | Raise e => Raise e
  | Ok doc =>
      match pyindex (obj_properties doc r) "cmis:name" with
      | Raise e => Raise e
      | Ok filename =>
          match pyindex (obj_properties doc r) "cmis:contentStreamId" with
          | Raise e => Raise e
          | Ok stream_id =>
              let empty := bool_decide (stream_id = PNone) in
              if empty then Ok (filename, "")
              else Ok (filename, doc_getContentStream doc r)
          end
      end
  end.

(** Line 237 evaluates an expression and drops its value, so the stream
    is set on the document [_get_cmis_doc] returned. *)
Definition zet_inhoud (document : EnkelvoudigInformatieObject) (stream : string)
    (content_type checkout_id : option string) (r : R) : result unit * R :=
  match _get_cmis_doc document checkout_id r with
  | Raise e => (Raise e, r)
  | Ok cmis_doc => (Ok (), doc_setContentStream cmis_doc stream content_type r)
  end.

(** The dictionary comprehension of line 245. *)
Definition diff_properties (current_properties new_properties : props) : props :=
  filter (λ kv, pyget current_properties kv.1 ≠ pyget new_properties kv.1)
    new_properties.

(** As in [zet_inhoud], line 242 drops the working copy it looks up:
    properties are compared with, and written to, the document that
    [_get_cmis_doc] returned. *)
Definition update_zaakdocument (document : EnkelvoudigInformatieObject)
    (checkout_id : option string) (inhoud : option Inhoud) (r : R)
    : result unit * R :=
  match _get_cmis_doc document checkout_id r with
  | Raise e => (Raise e, r)
  | Ok cmis_doc =>
      let current_properties := obj_properties cmis_doc r in
      let new_properties :=
        _build_cmis_doc_properties document (bestandsnaam <$> inhoud) in
      let diff := diff_properties current_properties new_properties in
      match doc_updateProperties cmis_doc diff r with
      | Raise UpdateConflictException => (Raise DocumentConflictException, r)
      | Raise e => (Raise e, r)
      | Ok r1 =>
          let written :=
            match inhoud with
            | Some inhoud => zet_inhoud document (to_cmis inhoud) None checkout_id r1
            | None => (Ok (), r1)
            end in
          match written with
          | (Raise e, r2) => (Raise e, r2)
          | (Ok _, r2) =>
              if truthy checkout_id then (Ok (), doc_checkin cmis_doc r2)
              else (Ok (), r2)
          end
      end
  end.

(** [pwc.reload()] refreshes the properties the handle caches; here
    properties are always read from the repository state. *)
Definition checkout (document : EnkelvoudigInformatieObject) (r : R)
    : result (pyval * pyval) * R :=
  match _get_cmis_doc document None r with
  | Raise e => (Raise e, r)
  | Ok cmis_doc =>
      match doc_checkout cmis_doc r with
      | Raise UpdateConflictException => (Raise DocumentLockedException, r)
      | Raise e => (Raise e, r)
      | Ok (pwc, r1) =>
          match pyindex (obj_properties pwc r1) "cmis:versionSeriesCheckedOutId" with
          | Raise e => (Raise e, r1)
          | Ok checkout_id =>
              match pyindex (obj_properties pwc r1) "cmis:versionSeriesCheckedOutBy" with
              | Raise e => (Raise e, r1)
              | Ok checkout_by => (Ok (checkout_id, checkout_by), r1)
              end
          end
      end
  end.

Definition cancel_checkout (document : EnkelvoudigInformatieObject)
    (checkout_id : option string) (r : R) : result unit * R :=
  match _get_cmis_doc document checkout_id r with
  | Raise e => (Raise e, r)
  | Ok cmis_doc => (Ok (), doc_cancelCheckout cmis_doc r)
  end.

Definition is_locked (document : EnkelvoudigInformatieObject) (r : R) : result bool :=
  match _get_cmis_doc document None r with
  | Raise e => Raise e
  | Ok cmis_doc =>
      let pwc := doc_getPrivateWorkingCopy cmis_doc r in
      Ok (bool_decide (pwc ≠ None))
  end.

(** The arguments of one call of [maak_zaakdocument_met_inhoud]. *)
Record create_call := {
  cc_document : EnkelvoudigInformatieObject;
  cc_zaak_url : option string;
  cc_filename : option string;
  cc_sender : option string;
  cc_stream : option string;
  cc_content_type : option string;
}.

(** A sequence of create calls, each on the state the previous one left. *)
Fixpoint run_creates (calls : list create_call) (w : world R)
    : list (result (cmis_object * EnkelvoudigInformatieObject)) * world R :=
  match calls with
  | [] => ([], w)
  | c :: calls' =>
      let '(x, w1) :=
        maak_zaakdocument_met_inhoud (cc_document c) (cc_zaak_url c) (cc_filename c)
          (cc_sender c) (cc_stream c) (cc_content_type c) w in
      let '(xs, w2) := run_creates calls' w1 in
      (x :: xs, w2)
  end.

(** Two repository states hold the same documents: every query has the
    same result and every document the same latest version. *)
Definition same_documents (r r' : R) : Prop :=
  (∀ q, repo_query q r' = repo_query q r) ∧
  (∀ h, doc_getLatestVersion h r' = doc_getLatestVersion h r).

End Documents.

(** ** An in-memory repository

    A small repository that implements the calls of [Repository]; it
    serves to run the client on concrete inputs.  It keeps a journal of
    the calls that reach it. *)
Module MemRepo.

Record mem_object := {
  mo_id : string;
  mo_name : string;
  mo_parent : string;
  mo_props : props;
  mo_stream : string;
  mo_paths : list string;
}.

Record mem_repo := {
  mr_info : gmap string Z;
  mr_objects : list mem_object;
  mr_pwcs : gmap string props;
  mr_changes : list ChangeEntry;
  mr_journal : list string;
}.

Definition log (call : string) (r : mem_repo) : mem_repo :=
  {| mr_info := mr_info r; mr_objects := mr_objects r; mr_pwcs := mr_pwcs r;
     mr_changes := mr_changes r; mr_journal := mr_journal r ++ [call] |}.

Definition with_objects (objs : list mem_object) (r : mem_repo) : mem_repo :=
  {| mr_info := mr_info r; mr_objects := objs; mr_pwcs := mr_pwcs r;
     mr_changes := mr_changes r; mr_journal := mr_journal r |}.

Definition with_pwcs (pwcs : gmap string props) (r : mem_repo) : mem_repo :=
  {| mr_info := mr_info r; mr_objects := mr_objects r; mr_pwcs := pwcs;
     mr_changes := mr_changes r; mr_journal := mr_journal r |}.

Definition find_object (h : string) (r : mem_repo) : option mem_object :=
  List.find (λ o, bool_decide (mo_id o = h)) (mr_objects r).

Definition update_object (h : string) (f : mem_object → mem_object) (r : mem_repo)
    : mem_repo :=
  with_objects ((λ o, if decide (mo_id o = h) then f o else o) <$> mr_objects r) r.

(** The text of the query for an identification. *)
Definition query_text (ident : string) : string :=
  "SELECT * FROM zsdms:document WHERE zsdms:documentIdentificatie = '"
    +:+ ident +:+ "'".

Definition matches (q : string) (o : mem_object) : bool :=
  match mo_props o !! "zsdms:documentIdentificatie" with
  | Some (PStr ident) => bool_decide (q = query_text ident)
  | _ => false
  end.

Definition pwc_id (h : string) : string := h +:+ ";pwc".

Definition new_object (id name parent : string) (p : props) (stream : string)
    (r : mem_repo) : mem_object :=
  let parent_path :=
    match find_object parent r with
    | Some o => default "" (head (mo_paths o))
    | None => ""
    end in
  {| mo_id := id; mo_name := name; mo_parent := parent;
     mo_props :=
       <["cmis:objectId" := PStr id]>
         (<["cmis:name" := PStr name]>
            (<["cmis:contentStreamId" :=
                 if bool_decide (stream = "") then PNone else PStr ("stream:" +:+ id)]> p));
     mo_stream := stream;
     mo_paths := [parent_path +:+ "/" +:+ name] |}.

Definition fresh_id (kind : string) (r : mem_repo) : string :=
  kind +:+ pretty (length (mr_objects r)) +:+ ";1.0".

(** Modelled from the spec: [checkin(lockHandle)] of the store gateway
    consumes and removes the working copy it is called on; an object
    that is no working copy has none to consume. *)
Definition checkin_result (h : string) (r : mem_repo) : mem_repo :=
  log "checkin" (with_pwcs (delete h (mr_pwcs r)) r).

(** The state in which [updateProperties] leaves the repository. *)
Definition doc_updateProperties_result (h : string) (diff : props) (r : mem_repo)
    : mem_repo :=
  log "updateProperties"
    (update_object h
       (λ o, {| mo_id := mo_id o; mo_name := mo_name o; mo_parent := mo_parent o;
                mo_props := diff ∪ mo_props o;
                mo_stream := mo_stream o; mo_paths := mo_paths o |}) r).

#[export] Instance mem_repository : Repository mem_repo := {|
  repo_reload r := log "reload" r;
  repo_info r := mr_info r;
  repo_query q r := mo_id <$> List.filter (matches q) (mr_objects r);
  repo_getObject h r :=
    match find_object h r with
    | Some o => Ok (mo_id o)
    | None => Raise ObjectNotFoundException
    end;
  repo_getObjectByPath path r :=
    match List.find (λ o, bool_decide (path ∈ mo_paths o)) (mr_objects r) with
    | Some o => Ok (mo_id o)
    | None => Raise ObjectNotFoundException
    end;
  repo_getContentChanges token include_properties max_items r :=
    (take (Z.to_nat max_items) (mr_changes r), log "getContentChanges" r);
  repo_createDocument name p stream content_type parent r :=
    let id := fresh_id "doc" r in
    (id, log "createDocument"
           (with_objects (mr_objects r ++ [new_object id name parent p stream r]) r));
  root_folder := "root";
  obj_properties h r :=
    match mr_pwcs r !! h with
    | Some p => p
    | None => default ∅ (mo_props <$> find_object h r)
    end;
  obj_name h r := default "" (mo_name <$> find_object h r);
  obj_getObjectId h r := h;
  folder_getChildren h r :=
    mo_id <$> List.filter (λ o, bool_decide (mo_parent o = h)) (mr_objects r);
  folder_createFolder parent name p r :=
    let id := fresh_id "folder" r in
    (id, log "createFolder"
           (with_objects (mr_objects r ++ [new_object id name parent p "" r]) r));
  doc_getLatestVersion h r := h;
  doc_getPrivateWorkingCopy h r :=
    match mr_pwcs r !! pwc_id h with
    | Some _ => Some (pwc_id h)
    | None => None
    end;
  doc_getContentStream h r := default "" (mo_stream <$> find_object h r);
  doc_setContentStream h stream content_type r :=
    log "setContentStream"
      (update_object h
         (λ o, {| mo_id := mo_id o; mo_name := mo_name o; mo_parent := mo_parent o;
                  mo_props := <["cmis:contentStreamId" := PStr ("stream:" +:+ h)]> (mo_props o);
                  mo_stream := stream; mo_paths := mo_paths o |}) r);
  doc_updateProperties h diff r := Ok (doc_updateProperties_result h diff r);
  doc_checkout h r :=
    match mr_pwcs r !! pwc_id h with
    | Some _ => Raise UpdateConflictException
    | None =>
        Ok (pwc_id h,
            log "checkout"
              (with_pwcs
                 (<[pwc_id h :=
                      {[ "cmis:versionSeriesCheckedOutId" := PStr (pwc_id h);
                         "cmis:versionSeriesCheckedOutBy" := PStr "admin" ]}]>
                    (mr_pwcs r)) r))
    end;
  doc_cancelCheckout h r :=
    log "cancelCheckout" (with_pwcs (delete (pwc_id h) (mr_pwcs r)) r);
  doc_checkin h r := checkin_result h r;
  doc_getPaths h r := default [] (mo_paths <$> find_object h r);
|}.

(** Settings and declarations to run the client with. *)
#[export] Instance omgeving : Omgeving := {|
  CMIS_SENDER_PROPERTY := Some "zsdms:documentauteur";
  upload_to zaak_url :=
    [ {| fc_type := Some "F:zsdms:zaken"; fc_name := Some "Zaken" |};
      {| fc_type := Some "F:zsdms:zaak"; fc_name := None |} ];
  slugify s := s;
  TEMP_FOLDER_NAME := "_temp";
  CMISObjectType_edc := "D:zsdms:document";
  CMISObjectType_zaak_folder := "F:zsdms:zaak";
  document_query := query_text;
  get_cmis_object_id := rsplit_head;
  get_cmis_properties document :=
    <["zsdms:documentIdentificatie" := PStr (identificatie document)]> (velden document);
  apply_cmis_properties p document :=
    Ok {| pk := pk document; identificatie := identificatie document;
          titel := titel document; _object_id := _object_id document;
          velden := p |};
|}.

End MemRepo.

(** ** A reconciliation scenario

    The window of the spec's reconciliation example: one [created]
    entry, an [updated] entry with and one without a local record, a
    [deleted] entry with and one without a local record, a [security]
    entry and one of an unknown type. *)
Module Scenario.
Import MemRepo.

Definition edc_object (id ident : string) : mem_object :=
  {| mo_id := id; mo_name := ident; mo_parent := "zaak-1";
     mo_props :=
       {[ "cmis:objectTypeId" := PStr "D:zsdms:document";
          "cmis:name" := PStr ident;
          "cmis:contentStreamId" := PNone;
          "zsdms:documentIdentificatie" := PStr ident ]};
     mo_stream := "";
     mo_paths := ["/Zaken/zaak-1/" +:+ ident] |}.

Definition folder_object (id : string) : mem_object :=
  {| mo_id := id; mo_name := id; mo_parent := "zaken";
     mo_props :=
       {[ "cmis:objectTypeId" := PStr "F:zsdms:zaak"; "cmis:name" := PStr id ]};
     mo_stream := "";
     mo_paths := ["/Zaken/" +:+ id] |}.

Definition entry (n type oid : string) : ChangeEntry :=
  {| ce_id := n; changeType := type; objectId := oid |}.

Definition record (k : Z) (ident oid : string) : EnkelvoudigInformatieObject :=
  {| pk := Some k; identificatie := ident; titel := ident; _object_id := oid;
     velden := ∅ |}.

Definition window : list ChangeEntry :=
  [ entry "1" "created" "doc-a;1.0";
    entry "2" "updated" "doc-b;1.1";
    entry "3" "updated" "doc-c;1.1";
    entry "4" "deleted" "doc-d;1.0";
    entry "5" "deleted" "doc-e;1.0";
    entry "6" "security" "doc-a;1.0";
    entry "7" "renamed" "doc-a;1.0" ].

Definition store : mem_repo :=
  {| mr_info := {[ "latestChangeLogToken" := 7 ]};
     mr_objects :=
       [folder_object "zaak-1";
        edc_object "doc-a" "A"; edc_object "doc-b" "B"; edc_object "doc-c" "C"];
     mr_pwcs := ∅;
     mr_changes := window;
     mr_journal := [] |}.

Definition local : database :=
  {| changelogs := [];
     documenten := [record 1 "B" "doc-b"; record 2 "D" "doc-d"; record 9 "Z" ""] |}.

Definition start : world mem_repo := World store local.

(** The same repository seen from a ledger whose last completed run is
    at an earlier token, at the current token or at a later token, and
    from one with a run in progress. *)
Definition run (k token : Z) (s : ChangeLogStatus) : ChangeLog :=
  {| cl_pk := k; cl_token := token; cl_status := s |}.

Definition with_ledger (l : list ChangeLog) : world mem_repo :=
  World store {| changelogs := l; documenten := documenten local |}.

Definition behind : world mem_repo := with_ledger [run 1 3 completed].
Definition up_to_date : world mem_repo := with_ledger [run 1 3 completed; run 2 7 completed].
Definition ahead : world mem_repo := with_ledger [run 1 9 completed].
Definition busy : world mem_repo := with_ledger [run 1 3 completed; run 2 5 in_progress].

(** Documents of the local record: [doc_B] has an object in the
    repository, [doc_Z] has none, and [doc_B_renamed] is [doc_B] with
    another description. *)
Definition doc_B : EnkelvoudigInformatieObject := record 1 "B" "doc-b".
Definition doc_Z : EnkelvoudigInformatieObject := record 9 "Z" "".
Definition doc_B_renamed : EnkelvoudigInformatieObject :=
  {| pk := Some 1; identificatie := "B"; titel := "B"; _object_id := "doc-b";
     velden := {[ "zsdms:documentbeschrijving" := PStr "Een beschrijving" ]} |}.

Definition create_of (document : EnkelvoudigInformatieObject) : create_call :=
  {| cc_document := document; cc_zaak_url := None; cc_filename := None;
     cc_sender := Some "maykin"; cc_stream := Some "test"; cc_content_type := None |}.

(** The repository after content was set on the object of [doc_B]. *)
Definition store_with_content : mem_repo :=
  doc_setContentStream "doc-b" "some content" (Some "text/plain") store.

(** The repository without a changelog token, and with the object of
    [doc_B] checked out. *)
Definition store_without_token : mem_repo :=
  {| mr_info := ∅; mr_objects := mr_objects store; mr_pwcs := ∅;
     mr_changes := window; mr_journal := [] |}.

Definition store_locked : mem_repo := (checkout doc_B store).2.

(** [doc_B] with the field values of its object in the repository. *)
Definition applied_B : EnkelvoudigInformatieObject :=
  {| pk := Some 1; identificatie := "B"; titel := "B"; _object_id := "doc-b";
     velden := mo_props (edc_object "doc-b" "B") |}.

(** A document with an author of its own, in a database of its own. *)
Definition doc_P : EnkelvoudigInformatieObject :=
  {| pk := Some 7; identificatie := "P"; titel := "P"; _object_id := "";
     velden := {[ "zsdms:documentauteur" := PStr "piet" ]} |}.

Definition authored : world mem_repo :=
  World store {| changelogs := []; documenten := [doc_P] |}.

End Scenario.

(** ** The other methods of the client *)

(** The calls on [cmislib] that only the methods below make. *)
Class RepositoryTree (R : Type) := {
  (* doc.getObjectParents() *)
  doc_getObjectParents : cmis_object → R → list cmis_object;
  (* doc.move(source, target) *)
  doc_move : cmis_object → cmis_object → cmis_object → R → R;
  (* doc.delete() *)
  doc_delete : cmis_object → R → R;
}.

(** Declarations of [abstract] and [choices] that only these methods
    use. *)
Class Mappen := {
  (* DRCClient.TRASH_FOLDER *)
  TRASH_FOLDER : string;
  (* CMISObjectType.zaken *)
  CMISObjectType_zaken : string;
}.

(** The key under which the loop of [sync] remembers an entry (line 368). *)
Definition entry_key `{Omgeving} (change_entry : ChangeEntry) : string :=
  get_cmis_object_id (objectId change_entry) +:+ "-" +:+ changeType change_entry.

(** How often a character occurs in a string. *)
Fixpoint count_char (c : ascii) (s : string) : nat :=
  match s with
  | EmptyString => 0%nat
  | String c' s' => ((if Ascii.eqb c' c then 1 else 0) + count_char c s')%nat
  end.

(** The sum of the five counters. *)
Definition total (c : counters) : Z :=
  created c + updated c + deleted c + security c + failed c.

Section Tree.
Context {R : Type} `{!Repository R} `{!RepositoryTree R} `{!Omgeving} `{!Mappen}.

(** Lines 124-126: a level of the type [zaken] is created as a plain
    folder. *)
Definition retype (folder_config : FolderConfig) : FolderConfig :=
  if bool_decide (fc_type folder_config = Some CMISObjectType_zaken)
  then {| fc_type := Some "cmis:folder"; fc_name := fc_name folder_config |}
  else folder_config.

(** The second loop of [creeer_zaakfolder] (lines 129-132); [parent] is
    [None] until the first level is resolved. *)
Fixpoint creeer_levels (zaak_url : string) (levels : list FolderConfig)
    (parent : option cmis_object) (r : R) : result (option cmis_object) * R :=
  match levels with
  | [] => (Ok parent, r)
  | folder_config :: levels' =>
      let properties : props :=
        if truthy (fc_type folder_config)
        then {[ "cmis:objectTypeId" := pystr (fc_type folder_config) ]}
        else ∅ in
      match get_folder_name zaak_url folder_config with
      | Raise e => (Raise e, r)
      | Ok name =>
          let '((folder, _), r') :=
            _get_or_create_folder name (Some properties) parent r in
          creeer_levels zaak_url levels' (Some folder) r'
      end
  end.

Definition creeer_zaakfolder (zaak_url : string) (r : R)
    : result (option cmis_object) * R :=
  creeer_levels zaak_url (retype <$> upload_to zaak_url) None r.

Definition relateer_aan_zaak (document : EnkelvoudigInformatieObject)
    (zaak_url : string) (r : R) : result unit * R :=
  match _get_cmis_doc document None r with
  | Raise e => (Raise e, r)
  | Ok cmis_doc =>
      match _get_zaakfolder zaak_url r with
      | Raise e => (Raise e, r)
      | Ok zaakfolder =>
          match index0 (doc_getObjectParents cmis_doc r) with
          | Raise e => (Raise e, r)
          | Ok parent => (Ok (), doc_move cmis_doc parent zaakfolder r)
          end
      end
  end.

Definition ontkoppel_zaakdocument (document : EnkelvoudigInformatieObject)
    (zaak_url : string) (r : R) : result unit * R :=
  match _get_cmis_doc document None r with
  | Raise e => (Raise e, r)
  | Ok cmis_doc =>
      match _get_zaakfolder zaak_url r with
      | Raise e => (Raise e, r)
      | Ok cmis_folder =>
          let '((trash_folder, _), r1) :=
            _get_or_create_folder TRASH_FOLDER None None r in
          (Ok (), doc_move cmis_doc cmis_folder trash_folder r1)
      end
  end.

Definition verwijder_document (document : EnkelvoudigInformatieObject) (r : R)
    : result unit * R :=
  match _get_cmis_doc document None r with
  | Raise e => (Raise e, r)
  | Ok cmis_doc => (Ok (), doc_delete cmis_doc r)
  end.

(** A checkout id that [_get_cmis_doc] refuses (line 103): the document
    has no working copy, or the working copy carries another id. *)
Definition wrong_checkout_id (h : cmis_object) (checkout_id : string) (r : R) : Prop :=
  match doc_getPrivateWorkingCopy h r with
  | None => True
  | Some pwc =>
      ∃ v, obj_properties pwc r !! "cmis:versionSeriesCheckedOutId" = Some v
           ∧ v ≠ PStr checkout_id
  end.

(** The local records agree except for [_object_id], and records with
    another primary key than [k] agree altogether. *)
Definition same_but_object_id (k : option Z)
    (before after : list EnkelvoudigInformatieObject) : Prop :=
  Forall2 (λ y y', pk y' = pk y ∧ identificatie y' = identificatie y
                   ∧ titel y' = titel y ∧ velden y' = velden y
                   ∧ (pk y ≠ k → y' = y)) before after.

End Tree.

(** ** The download view (drc/cmis/views.py) *)

(** What [DownloadFileView.get] gives: a response, [Http404], or an
    exception of the client. *)
Inductive http :=
  | HttpResponse (content content_type disposition : string)
  | Http404
  | ServerError (e : exn).

(** [smart_str] of a file name, as ['%s'] prints it. *)
Definition smart_str (v : pyval) : string :=
  match v with
  | PNone => "None"
  | PStr s => s
  | PInt z => pretty z
  end.

(** [DownloadFileView.get] for the document [get_object] has found. *)
Definition DownloadFileView_get {R : Type} `{!Repository R} `{!Omgeving}
    (document : EnkelvoudigInformatieObject) (r : R) : http :=
  match geef_inhoud document r with
  | Raise e => ServerError e
  | Ok (filename, content) =>
      let file_content := content in
      if bool_decide (file_content ≠ "") then
        HttpResponse file_content "application/force-download"
          ("attachment; filename=" +:+ smart_str filename +:+ ".bin")
      else Http404
  end.

(** ** The in-memory repository, continued *)

#[global] Instance mem_repository_tree : RepositoryTree MemRepo.mem_repo := {|
  doc_getObjectParents h r :=
    match MemRepo.find_object h r with
    | Some o => [MemRepo.mo_parent o]
    | None => []
    end;
  doc_move h source target r :=
    MemRepo.log "move"
      (MemRepo.update_object h
         (λ o, {| MemRepo.mo_id := MemRepo.mo_id o; MemRepo.mo_name := MemRepo.mo_name o;
                  MemRepo.mo_parent :=
                    if bool_decide (MemRepo.mo_parent o = source) then target
                    else MemRepo.mo_parent o;
                  MemRepo.mo_props := MemRepo.mo_props o;
                  MemRepo.mo_stream := MemRepo.mo_stream o;
                  MemRepo.mo_paths := MemRepo.mo_paths o |}) r);
  doc_delete h r :=
    MemRepo.log "delete"
      (MemRepo.with_objects
         (filter (λ o, MemRepo.mo_id o ≠ h) (MemRepo.mr_objects r)) r);
|}.

#[global] Instance mem_mappen : Mappen := {|
  TRASH_FOLDER := "Unfiled";
  CMISObjectType_zaken := "F:zsdms:zaken";
|}.

(** * Properties *)

(** ** The run ledger *)

Lemma max_pk_bound (l : list ChangeLog) (c : ChangeLog) :
  c ∈ l → (cl_pk c ≤ max_pk l)%Z.
Proof.
  induction l as [|x l IH]; intros Hin.
  - by apply elem_of_nil in Hin.
  - apply elem_of_cons in Hin as [->|Hin]; simpl; [lia|].
    specialize (IH Hin). lia.
Qed.

Lemma filter_other_pk (l : list ChangeLog) :
  filter (λ x, cl_pk x ≠ max_pk l + 1) l = l.
Proof.
  assert (∀ m, (max_pk l ≤ m)%Z → filter (λ x, cl_pk x ≠ m + 1) l = l) as H.
  { induction l as [|x l IH]; intros m Hm; [done|].
    simpl in Hm. rewrite filter_cons_True by lia.
    f_equal. apply IH. lia. }
  apply H. lia.
Qed.

Lemma filter_other_pk_snoc (l : list ChangeLog) (c : ChangeLog) :
  cl_pk c = (max_pk l + 1)%Z →
  filter (λ x, cl_pk x ≠ max_pk l + 1) (l ++ [c]) = l.
Proof.
  intros Hc. rewrite filter_app, filter_other_pk.
  rewrite filter_cons_False by (intros Hne; by apply Hne).
  by rewrite filter_nil, app_nil_r.
Qed.

(** Deleting the run record that was just created restores the ledger. *)
Lemma ChangeLog_create_delete (token : Z) (d : database) :
  ChangeLog_delete (ChangeLog_create token d).1 (ChangeLog_create token d).2 = d.
Proof.
  destruct d as [l docs]. unfold ChangeLog_delete, ChangeLog_create. simpl.
  f_equal. by apply filter_other_pk_snoc.
Qed.

(** The other runs with a given status, seen from the new record, are
    the runs that had this status before. *)
Lemma ChangeLog_count_other_create (token : Z) (s : ChangeLogStatus) (d : database) :
  ChangeLog_count_other (cl_pk (ChangeLog_create token d).1) s
    (ChangeLog_create token d).2
  = Z.of_nat (length (filter (λ x, cl_status x = s) (changelogs d))).
Proof.
  unfold ChangeLog_count_other, ChangeLog_create. simpl.
  by rewrite filter_other_pk_snoc.
Qed.

(** A new run record is in progress, so the last completed run stays. *)
Lemma ChangeLog_last_create (token : Z) (d : database) :
  ChangeLog_last completed (ChangeLog_create token d).2 = ChangeLog_last completed d.
Proof.
  unfold ChangeLog_last, ChangeLog_create. simpl.
  rewrite filter_app, filter_cons_False by (simpl; congruence).
  by rewrite filter_nil, app_nil_r.
Qed.

Section SyncProperties.
Context {R : Type} `{!Repository R} `{!Omgeving}.

(** A dry run stops after reading the token: the whole of the
    reconciliation sits under [if not dryrun]. *)
Lemma sync_dryrun_returns_None (w : world R) (token : Z) :
  repo_info (repo_reload (w_repo w)) !! "latestChangeLogToken" = Some token →
  sync true w = (Ok RNone, World (repo_reload (w_repo w)) (w_db w)).
Proof. intros Htok. unfold sync, atomic, sync_body. by rewrite Htok. Qed.

(** The body of [sync] once the token is read and no other run is in
    progress. *)
Lemma sync_body_free (w : world R) (token : Z) :
  repo_info (repo_reload (w_repo w)) !! "latestChangeLogToken" = Some token →
  no_run_in_progress (w_db w) →
  sync_body false w =
    let r := repo_reload (w_repo w) in
    let d := (ChangeLog_create token (w_db w)).2 in
    let last := last_completed_token (w_db w) in
    let max_items := (token - last)%Z in
    if (max_items <? 0)%Z then
      (Raise (SyncException "The DRC change log token is older than our records."),
       World r d)
    else if (max_items =? 0)%Z then (Ok (RDict []), World r d)
    else
      let res := repo_getContentChanges last true max_items r in
      let s := foldl (process_entry false res.2) (LoopState zero_counters ∅ d) res.1 in
      (Raise AttributeError, World res.2 (ls_db s)).
Proof.
  intros Htok Hfree. unfold sync_body. rewrite Htok. simpl negb. cbv iota.
  pose proof (ChangeLog_count_other_create token in_progress (w_db w)) as Hc.
  pose proof (ChangeLog_last_create token (w_db w)) as Hl.
  destruct (ChangeLog_create token (w_db w)) as [c d] eqn:Hcreate. simpl in *.
  rewrite Hc, Hfree. simpl. rewrite Hl. fold (last_completed_token (w_db w)).
  destruct (_ <? 0)%Z; [done|].
  destruct (_ =? 0)%Z; [done|].
  by destruct (repo_getContentChanges _ _ _ _).
Qed.

(** With a positive window the run always ends in [AttributeError]: on
    the path without a conflict [change_log] is [None] (line 351) when
    its status is assigned (line 422), and the decorator rolls the
    database back. *)
Lemma sync_positive_window_raises (w : world R) (token : Z) :
  repo_info (repo_reload (w_repo w)) !! "latestChangeLogToken" = Some token →
  no_run_in_progress (w_db w) →
  (0 < token - last_completed_token (w_db w))%Z →
  (sync false w).1 = Raise AttributeError ∧ w_db (sync false w).2 = w_db w.
Proof.
  intros Htok Hfree Hpos. unfold sync, atomic.
  rewrite (sync_body_free w token Htok Hfree). cbv zeta.
  destruct (_ <? 0)%Z eqn:Hneg; [lia|].
  destruct (_ =? 0)%Z eqn:Hzero; [lia|]. done.
Qed.

(** A run with an empty window leaves its run record behind, in
    progress. *)
Lemma sync_zero_window_ledger (w : world R) (token : Z) :
  repo_info (repo_reload (w_repo w)) !! "latestChangeLogToken" = Some token →
  no_run_in_progress (w_db w) →
  token - last_completed_token (w_db w) = 0 →
  w_db (sync false w).2 = (ChangeLog_create token (w_db w)).2.
Proof.
  intros Htok Hfree Hzero. unfold sync, atomic.
  rewrite (sync_body_free w token Htok Hfree). cbv zeta.
  rewrite Hzero. done.
Qed.

(** C4: when another run record is in progress as a non-dry run starts,
    the run raises [SyncException]; the body itself has deleted the
    record it created, so that already before the rollback the database
    is the one the run started from, and the last completed run is the
    same afterwards. *)
Theorem sync_conflict_leaves_ledger (w : world R) (token : Z) (c : ChangeLog) :
  repo_info (repo_reload (w_repo w)) !! "latestChangeLogToken" = Some token →
  c ∈ changelogs (w_db w) →
  cl_status c = in_progress →
  let conflict := SyncException "A synchronization process is already running." in
  sync_body false w = (Raise conflict, World (repo_reload (w_repo w)) (w_db w)) ∧
  sync false w = (Raise conflict, World (repo_reload (w_repo w)) (w_db w)) ∧
  ChangeLog_last completed (w_db (sync false w).2) = ChangeLog_last completed (w_db w).
Proof.
  intros Htok Hin Hst conflict.
  assert (sync_body false w
          = (Raise conflict, World (repo_reload (w_repo w)) (w_db w))) as Hbody.
  { unfold sync_body. rewrite Htok. simpl negb. cbv iota.
    pose proof (ChangeLog_count_other_create token in_progress (w_db w)) as Hc.
    pose proof (ChangeLog_create_delete token (w_db w)) as Hd.
    destruct (ChangeLog_create token (w_db w)) as [c' d]. simpl in *.
    rewrite Hc, Hd.
    assert (c ∈ filter (λ x, cl_status x = in_progress) (changelogs (w_db w))) as Hf
      by (apply list_elem_of_filter; done).
    destruct (filter _ (changelogs (w_db w))) as [|y l]; [by apply elem_of_nil in Hf|].
    done. }
  split; [done|]. unfold sync, atomic. rewrite Hbody. done.
Qed.

(** The window of a non-dry run that finds no other run in progress is
    the store's token minus the token of the last completed run (0
    without one).  With a negative window the run raises
    [SyncException] and the database is as before; with an empty window
    it returns the empty dictionary, and the repository has only been
    reloaded, whatever the repository does on [getContentChanges]. *)
Lemma sync_window (w : world R) (token : Z) :
  repo_info (repo_reload (w_repo w)) !! "latestChangeLogToken" = Some token →
  no_run_in_progress (w_db w) →
  let window_size := (token - last_completed_token (w_db w))%Z in
  ((window_size < 0)%Z →
     (sync false w).1
       = Raise (SyncException "The DRC change log token is older than our records.")
     ∧ w_db (sync false w).2 = w_db w) ∧
  (window_size = 0 →
     (sync false w).1 = Ok (RDict [])
     ∧ w_repo (sync false w).2 = repo_reload (w_repo w)).
Proof.
  intros Htok Hfree window_size. unfold sync, atomic.
  rewrite (sync_body_free w token Htok Hfree). cbv zeta.
  fold window_size. split.
  - intros Hneg. destruct (_ <? 0)%Z eqn:E; [done|lia].
  - intros Hzero. rewrite Hzero. done.
Qed.

(** C10: an entry of type [created] or [updated] that is not a repeat
    and whose object is found, but is not of the type [edc], changes no
    counter and not the database. *)
Theorem process_entry_other_type_ignored (dryrun : bool) (r : R) (s : loop_state)
    (change_entry : ChangeEntry) (dms_document : cmis_object) :
  let object_id := get_cmis_object_id (objectId change_entry) in
  changeType change_entry = CMISChangeType.created
    ∨ changeType change_entry = CMISChangeType.updated →
  object_id +:+ "-" +:+ changeType change_entry ∉ ls_cache s →
  repo_getObject object_id r = Ok dms_document →
  pyget (obj_properties dms_document r) "cmis:objectTypeId" ≠ PStr CMISObjectType_edc →
  ls_counters (process_entry dryrun r s change_entry) = ls_counters s ∧
  ls_db (process_entry dryrun r s change_entry) = ls_db s.
Proof.
  intros object_id Htype Hfresh Hobj Hother. unfold process_entry.
  fold object_id. rewrite bool_decide_eq_false_2 by done.
  unfold dispatch.
  assert (bool_decide (changeType change_entry = CMISChangeType.created)
          || bool_decide (changeType change_entry = CMISChangeType.updated) = true) as ->.
  { destruct Htype as [->| ->]; done. }
  rewrite Hobj. rewrite (bool_decide_eq_false_2 _ Hother). done.
Qed.

End SyncProperties.

(** ** Documents *)

Section DocumentProperties.
Context {R : Type} `{!Repository R} `{!Omgeving}.

Lemma _get_cmis_doc_found (document : EnkelvoudigInformatieObject) (r : R)
    (h : cmis_object) (l : list cmis_object) :
  repo_query (document_query (identificatie document)) r = h :: l →
  _get_cmis_doc document None r = Ok (doc_getLatestVersion h r).
Proof. intros Hq. unfold _get_cmis_doc. by rewrite Hq. Qed.

Lemma _get_cmis_doc_missing (document : EnkelvoudigInformatieObject)
    (checkout_id : option string) (r : R) :
  repo_query (document_query (identificatie document)) r = [] →
  _get_cmis_doc document checkout_id r = Raise DocumentDoesNotExistError.
Proof. intros Hq. unfold _get_cmis_doc. by rewrite Hq. Qed.

(** Resolving a document looks at query results and latest versions
    only. *)
Lemma _get_cmis_doc_same_documents (document : EnkelvoudigInformatieObject)
    (r r' : R) :
  same_documents r r' →
  _get_cmis_doc document None r' = _get_cmis_doc document None r.
Proof.
  intros [Hq Hl]. unfold _get_cmis_doc. rewrite Hq.
  destruct (repo_query _ r); [done|]. by rewrite Hl.
Qed.

(** When the query finds a document, create raises before it touches
    the repository or the database. *)
Lemma create_existing (c : create_call) (w : world R) (h : cmis_object)
    (l : list cmis_object) :
  repo_query (document_query (identificatie (cc_document c))) (w_repo w) = h :: l →
  maak_zaakdocument_met_inhoud (cc_document c) (cc_zaak_url c) (cc_filename c)
    (cc_sender c) (cc_stream c) (cc_content_type c) w
  = (Raise DocumentExistsError, w).
Proof.
  intros Hq. unfold maak_zaakdocument_met_inhoud.
  by rewrite (_get_cmis_doc_found _ _ _ _ Hq).
Qed.

(** C6: when the repository holds an object for an identification,
    every create call of a sequence with that identification raises
    [DocumentExistsError] and leaves repository and database as they
    were, whatever the repository does on a write; the query for the
    identification yields the same objects as before, so that one
    object stays one. *)
Theorem create_existing_identifier_fails (ident : string) (h : cmis_object)
    (l : list cmis_object) (calls : list create_call) (w : world R) :
  repo_query (document_query ident) (w_repo w) = h :: l →
  Forall (λ c, identificatie (cc_document c) = ident) calls →
  run_creates calls w
    = (replicate (length calls) (Raise DocumentExistsError), w) ∧
  repo_query (document_query ident) (w_repo (run_creates calls w).2) = h :: l.
Proof.
  intros Hq Hcalls.
  assert (run_creates calls w
          = (replicate (length calls) (Raise DocumentExistsError), w)) as Hrun.
  { induction Hcalls as [|c calls Hc _ IH]; [done|].
    simpl. rewrite (create_existing c w h l) by (by rewrite Hc).
    by rewrite IH. }
  split; [done|]. by rewrite Hrun.
Qed.

(** C7: reading a document without an object in the repository gives
    [None] and the empty stream; with an object whose
    [cmis:contentStreamId] is [None] it gives the name and the empty
    stream; with an object that has a content stream it gives the name
    and that stream. *)
Theorem geef_inhoud_missing_empty_filled (document : EnkelvoudigInformatieObject)
    (r : R) :
  (repo_query (document_query (identificatie document)) r = [] →
     geef_inhoud document r = Ok (PNone, "")) ∧
  (∀ doc filename,
     _get_cmis_doc document None r = Ok doc →
     obj_properties doc r !! "cmis:name" = Some filename →
     obj_properties doc r !! "cmis:contentStreamId" = Some PNone →
     geef_inhoud document r = Ok (filename, "")) ∧
  (∀ doc filename stream_id,
     _get_cmis_doc document None r = Ok doc →
     obj_properties doc r !! "cmis:name" = Some filename →
     obj_properties doc r !! "cmis:contentStreamId" = Some stream_id →
     stream_id ≠ PNone →
     geef_inhoud document r = Ok (filename, doc_getContentStream doc r)).
Proof.
  split; [|split].
  - intros Hq. unfold geef_inhoud.
    by rewrite (_get_cmis_doc_missing _ _ _ Hq).
  - intros doc filename Hdoc Hname Hid. unfold geef_inhoud, pyindex.
    by rewrite Hdoc, Hname, Hid.
  - intros doc filename stream_id Hdoc Hname Hid Hne. unfold geef_inhoud, pyindex.
    rewrite Hdoc, Hname, Hid. by rewrite bool_decide_eq_false_2.
Qed.

(** The difference holds the entries of the new properties whose value
    is not the current one. *)
Lemma diff_properties_lookup (current new : props) (k : string) (v : pyval) :
  diff_properties current new !! k = Some v ↔
  new !! k = Some v ∧ pyget current k ≠ v.
Proof.
  unfold diff_properties. rewrite map_lookup_filter_Some. simpl.
  unfold pyget. split; intros [Hk Hne]; (split; [done|]);
    rewrite Hk in *; done.
Qed.

Lemma diff_properties_unchanged (current new : props) :
  (∀ k v, new !! k = Some v → pyget current k = v) →
  diff_properties current new = ∅.
Proof.
  intros Hsame. apply map_eq. intros k. rewrite lookup_empty.
  destruct (diff_properties current new !! k) as [v|] eqn:Hk; [|done].
  apply diff_properties_lookup in Hk as [Hk Hne].
  by specialize (Hsame k v Hk).
Qed.

(** The properties computed anew: the type is [edc], the name is the
    file name when content is given, and every other key is as
    [get_cmis_properties] gave it. *)
Lemma _build_cmis_doc_properties_lookup (document : EnkelvoudigInformatieObject)
    (filename : option string) :
  let new := _build_cmis_doc_properties document filename in
  new !! "cmis:objectTypeId" = Some (PStr CMISObjectType_edc) ∧
  new !! "cmis:name"
    = match filename with
      | Some f => Some (PStr f)
      | None => get_cmis_properties document !! "cmis:name"
      end ∧
  (∀ k, k ≠ "cmis:objectTypeId" → k ≠ "cmis:name" →
     new !! k = get_cmis_properties document !! k).
Proof.
  unfold _build_cmis_doc_properties. destruct filename as [f|]; simpl.
  - split; [|split].
    + rewrite lookup_insert_ne by done. apply lookup_insert_eq.
    + apply lookup_insert_eq.
    + intros k Ht Hn. by rewrite !lookup_insert_ne.
  - split; [|split].
    + apply lookup_insert_eq.
    + by rewrite lookup_insert_ne.
    + intros k Ht Hn. by rewrite lookup_insert_ne.
Qed.

Lemma diff_properties_empty (current new : props) :
  diff_properties current new = ∅ ↔
  ∀ k v, new !! k = Some v → pyget current k = v.
Proof.
  split; [|apply diff_properties_unchanged].
  intros Hempty k v Hk.
  destruct (decide (pyget current k = v)) as [Heq|Hne]; [done|].
  assert (diff_properties current new !! k = Some v) as Hd
    by (by apply diff_properties_lookup).
  by rewrite Hempty, lookup_empty in Hd.
Qed.

(** C9, amended: on update the properties are computed anew from the
    document: the type [edc], the file name when content is given, and
    for the rest what [get_cmis_properties] gives.  The dictionary
    handed to [updateProperties] holds the entries of these whose value
    is not the value the repository object has, and no other; it is
    empty exactly when every computed value is the value of the
    repository object.  A conflict the repository reports on it
    becomes [DocumentConflictException]. *)
Theorem update_sends_changed_properties (document : EnkelvoudigInformatieObject)
    (checkout_id : option string) (inhoud : option Inhoud) (cmis_doc : cmis_object)
    (r : R) :
  _get_cmis_doc document checkout_id r = Ok cmis_doc →
  let current := obj_properties cmis_doc r in
  let new := _build_cmis_doc_properties document (bestandsnaam <$> inhoud) in
  let diff := diff_properties current new in
  new !! "cmis:objectTypeId" = Some (PStr CMISObjectType_edc) ∧
  new !! "cmis:name"
    = match inhoud with
      | Some content => Some (PStr (bestandsnaam content))
      | None => get_cmis_properties document !! "cmis:name"
      end ∧
  (∀ k, k ≠ "cmis:objectTypeId" → k ≠ "cmis:name" →
     new !! k = get_cmis_properties document !! k) ∧
  (∀ k v, diff !! k = Some v ↔ new !! k = Some v ∧ pyget current k ≠ v) ∧
  (diff = ∅ ↔ ∀ k v, new !! k = Some v → pyget current k = v) ∧
  (doc_updateProperties cmis_doc diff r = Raise UpdateConflictException →
     update_zaakdocument document checkout_id inhoud r
       = (Raise DocumentConflictException, r)) ∧
  (∀ r1,
     doc_updateProperties cmis_doc diff r = Ok r1 →
     update_zaakdocument document checkout_id inhoud r =
       match inhoud with
       | None => (Ok (), if truthy checkout_id then doc_checkin cmis_doc r1 else r1)
       | Some content =>
           match zet_inhoud document (to_cmis content) None checkout_id r1 with
           | (Raise e, r2) => (Raise e, r2)
           | (Ok _, r2) =>
               (Ok (), if truthy checkout_id then doc_checkin cmis_doc r2 else r2)
           end
       end).
Proof.
  intros Hdoc current new diff.
  destruct (_build_cmis_doc_properties_lookup document (bestandsnaam <$> inhoud))
    as (Htype & Hname & Hrest).
  split; [exact Htype|]. split; [by destruct inhoud|]. split; [exact Hrest|].
  split; [|split; [|split]].
  - intros k v. apply diff_properties_lookup.
  - apply diff_properties_empty.
  - intros Hupd. unfold update_zaakdocument. rewrite Hdoc. cbv zeta.
    fold current new diff. by rewrite Hupd.
  - intros r1 Hupd. unfold update_zaakdocument. rewrite Hdoc. cbv zeta.
    fold current new diff. rewrite Hupd.
    destruct inhoud as [content|].
    + destruct (zet_inhoud _ _ _ _ _) as [[u|e] r2]; [|done].
      by destruct (truthy checkout_id).
    + by destruct (truthy checkout_id).
Qed.

End DocumentProperties.

(** ** Locking *)

Section LockProperties.
Context {R : Type} `{!Repository R} `{!Omgeving}.

Lemma is_locked_pwc (document : EnkelvoudigInformatieObject) (r : R) (h : cmis_object) :
  _get_cmis_doc document None r = Ok h →
  is_locked document r = Ok (bool_decide (doc_getPrivateWorkingCopy h r ≠ None)).
Proof. intros Hdoc. unfold is_locked. by rewrite Hdoc. Qed.

(** The conflict the repository reports on a checkout becomes
    [DocumentLockedException], and the repository is as before. *)
Lemma checkout_conflict (document : EnkelvoudigInformatieObject) (r : R)
    (h : cmis_object) :
  _get_cmis_doc document None r = Ok h →
  doc_checkout h r = Raise UpdateConflictException →
  checkout document r = (Raise DocumentLockedException, r).
Proof. intros Hdoc Hco. unfold checkout. by rewrite Hdoc, Hco. Qed.

(** The checkout id of the working copy passes the check of
    [_get_cmis_doc]. *)
Lemma _get_cmis_doc_checkout_id (document : EnkelvoudigInformatieObject) (r : R)
    (h pwc : cmis_object) (id : string) :
  _get_cmis_doc document None r = Ok h →
  doc_getPrivateWorkingCopy h r = Some pwc →
  obj_properties pwc r !! "cmis:versionSeriesCheckedOutId" = Some (PStr id) →
  _get_cmis_doc document (Some id) r = Ok h.
Proof.
  unfold _get_cmis_doc, pyindex. intros Hdoc Hpwc Hid.
  destruct (repo_query _ r) as [|h0 l]; [done|].
  injection Hdoc as Hh. rewrite Hh, Hpwc, Hid.
  by rewrite bool_decide_eq_true_2.
Qed.

Lemma truthy_nonempty (id : string) : id ≠ "" → truthy (Some id) = true.
Proof. by destruct id. Qed.

(** An update under a checkout id checks in the document that
    [_get_cmis_doc] returned, which is the latest version of the first
    query result, whatever working copy that document has: the working
    copy that line 242 looks up is dropped. *)
Lemma update_checks_in_latest_version (document : EnkelvoudigInformatieObject)
    (id : string) (r r1 : R) (h : cmis_object) :
  _get_cmis_doc document (Some id) r = Ok h →
  id ≠ "" →
  doc_updateProperties h
    (diff_properties (obj_properties h r) (_build_cmis_doc_properties document None))
    r = Ok r1 →
  update_zaakdocument document (Some id) None r = (Ok (), doc_checkin h r1) ∧
  ∃ h0 l, repo_query (document_query (identificatie document)) r = h0 :: l
          ∧ h = doc_getLatestVersion h0 r.
Proof.
  intros Hdoc Hne Hupd. split.
  - unfold update_zaakdocument. rewrite Hdoc.
    change (bestandsnaam <$> None) with (@None string). cbv zeta.
    rewrite Hupd. by rewrite (truthy_nonempty id Hne).
  - unfold _get_cmis_doc in Hdoc.
    destruct (repo_query _ r) as [|h0 l]; [done|]. exists h0, l. split; [done|].
    repeat case_match; by simplify_eq.
Qed.

End LockProperties.

(** ** The client on the in-memory repository *)

Import MemRepo.

(** ** The synchronisation on the scenario *)

(** C1: on the window of the spec's example the loop counts one
    created, one updated, one deleted, no security change and two
    failures, and the run then raises [AttributeError] instead of
    returning counters; the database is rolled back. *)
Theorem sync_scenario_raises :
  let res := repo_getContentChanges 0 true 7 (repo_reload Scenario.store) in
  res.1 = Scenario.window ∧
  ls_counters (foldl (process_entry false res.2)
                 (LoopState zero_counters ∅ (ChangeLog_create 7 Scenario.local).2)
                 res.1)
    = {| created := 1; updated := 1; deleted := 1; security := 0; failed := 2 |} ∧
  (sync false Scenario.start).1 = Raise AttributeError ∧
  w_db (sync false Scenario.start).2 = Scenario.local.
Proof. vm_compute. done. Qed.

(** C2: a dry run on the scenario returns [None]; the repository has
    been reloaded and not asked for its changes. *)
Theorem sync_dryrun_scenario :
  sync true Scenario.start
    = (Ok RNone, World (log "reload" Scenario.store) Scenario.local) ∧
  mr_journal (w_repo (sync true Scenario.start).2) = ["reload"].
Proof. vm_compute. done. Qed.

(** C3: a non-dry run with a window of four entries, no other run in
    progress, raises [AttributeError]; the ledger is the one from
    before the run and its last completed token is still 3. *)
Theorem sync_run_not_completed :
  no_run_in_progress (w_db Scenario.behind) ∧
  7 - last_completed_token (w_db Scenario.behind) = 4 ∧
  (sync false Scenario.behind).1 = Raise AttributeError ∧
  changelogs (w_db (sync false Scenario.behind).2) = [Scenario.run 1 3 completed] ∧
  last_completed_token (w_db (sync false Scenario.behind).2) = 3.
Proof. vm_compute. done. Qed.

Lemma sync_conflict_leaves_ledger_witness :
  let conflict := SyncException "A synchronization process is already running." in
  sync_body false Scenario.busy
    = (Raise conflict, World (repo_reload Scenario.store) (w_db Scenario.busy)) ∧
  sync false Scenario.busy
    = (Raise conflict, World (repo_reload Scenario.store) (w_db Scenario.busy)) ∧
  ChangeLog_last completed (w_db (sync false Scenario.busy).2)
    = ChangeLog_last completed (w_db Scenario.busy).
Proof.
  apply (sync_conflict_leaves_ledger Scenario.busy 7 (Scenario.run 2 5 in_progress)).
  - vm_compute. reflexivity.
  - simpl. apply list_elem_of_further, list_elem_of_here.
  - reflexivity.
Defined.

(** C5: a non-dry run whose window is empty (the last completed run
    is at the store's token 7, no run in progress) returns the empty
    dictionary, which holds no count at all, and not the five counts
    of zero; the repository has only been reloaded; the run record
    made at the start stays in the ledger, in progress. *)
Theorem sync_empty_window_scenario :
  no_run_in_progress (w_db Scenario.up_to_date) ∧
  7 - last_completed_token (w_db Scenario.up_to_date) = 0 ∧
  (sync false Scenario.up_to_date).1 = Ok (RDict []) ∧
  (sync false Scenario.up_to_date).1 ≠ Ok (counters_dict zero_counters) ∧
  mr_journal (w_repo (sync false Scenario.up_to_date).2) = ["reload"] ∧
  changelogs (w_db (sync false Scenario.up_to_date).2)
    = [Scenario.run 1 3 completed; Scenario.run 2 7 completed;
       Scenario.run 3 7 in_progress].
Proof. vm_compute. repeat split; try done. Qed.

Lemma sync_window_witness :
  ((sync false Scenario.ahead).1
     = Raise (SyncException "The DRC change log token is older than our records.")
   ∧ w_db (sync false Scenario.ahead).2 = w_db Scenario.ahead) ∧
  ((sync false Scenario.up_to_date).1 = Ok (RDict [])
   ∧ w_repo (sync false Scenario.up_to_date).2 = repo_reload Scenario.store).
Proof.
  split.
  - apply (sync_window Scenario.ahead 7); vm_compute; reflexivity.
  - apply (sync_window Scenario.up_to_date 7); vm_compute; reflexivity.
Defined.

Lemma process_entry_other_type_ignored_witness :
  let s := LoopState zero_counters ∅ Scenario.local in
  let change_entry := Scenario.entry "8" "updated" "zaak-1;1.0" in
  ls_counters (process_entry false Scenario.store s change_entry) = zero_counters ∧
  ls_db (process_entry false Scenario.store s change_entry) = Scenario.local.
Proof.
  apply (process_entry_other_type_ignored false Scenario.store
           (LoopState zero_counters ∅ Scenario.local)
           (Scenario.entry "8" "updated" "zaak-1;1.0") "zaak-1").
  - right. reflexivity.
  - simpl. apply not_elem_of_empty.
  - vm_compute. reflexivity.
  - vm_compute. discriminate.
Defined.

(** ** Documents on the scenario *)

(** Creating a document twice: the first call writes one object and
    stores its id, the second raises, and the query finds one object. *)
Example create_twice :
  let w1 := (maak_zaakdocument Scenario.doc_Z None None None Scenario.start).2 in
  repo_query (document_query "Z") Scenario.store = [] ∧
  repo_query (document_query "Z") (w_repo w1) = ["doc5;1.0"] ∧
  mr_journal (w_repo w1) = ["createFolder"; "createDocument"] ∧
  _object_id <$> documenten (w_db w1) = ["doc-b"; "doc-d"; "doc5"] ∧
  maak_zaakdocument Scenario.doc_Z None None None w1 = (Raise DocumentExistsError, w1).
Proof. vm_compute. done. Qed.

Lemma create_existing_identifier_fails_witness :
  let calls := [Scenario.create_of Scenario.doc_B; Scenario.create_of Scenario.doc_B_renamed] in
  run_creates calls Scenario.start
    = (replicate (length calls) (Raise DocumentExistsError), Scenario.start) ∧
  repo_query (document_query "B") (w_repo (run_creates calls Scenario.start).2)
    = ["doc-b"].
Proof.
  apply (create_existing_identifier_fails "B" "doc-b" []).
  - vm_compute. reflexivity.
  - repeat constructor.
Defined.

(** Reading on the scenario: a document without an object, one whose
    object has no content, and the same after content was set. *)
Lemma geef_inhoud_missing_empty_filled_witness :
  geef_inhoud Scenario.doc_Z Scenario.store = Ok (PNone, "") ∧
  geef_inhoud Scenario.doc_B Scenario.store = Ok (PStr "B", "") ∧
  geef_inhoud Scenario.doc_B Scenario.store_with_content = Ok (PStr "B", "some content").
Proof.
  split; [|split].
  - apply (geef_inhoud_missing_empty_filled Scenario.doc_Z Scenario.store).
    vm_compute. reflexivity.
  - apply (geef_inhoud_missing_empty_filled Scenario.doc_B Scenario.store)
      with (doc := "doc-b"); vm_compute; reflexivity.
  - etransitivity.
    + apply (proj2 (proj2 (geef_inhoud_missing_empty_filled Scenario.doc_B
                             Scenario.store_with_content))
               "doc-b" (PStr "B") (PStr "stream:doc-b"));
        vm_compute; (reflexivity || discriminate).
    + vm_compute. reflexivity.
Defined.

(** Updating on the scenario: nothing differs for [doc_B], and the
    description alone differs for [doc_B_renamed]. *)
Example update_unchanged :
  diff_properties (obj_properties "doc-b" Scenario.store)
    (_build_cmis_doc_properties Scenario.doc_B None) = ∅.
Proof. vm_compute. done. Qed.

Example update_changed :
  diff_properties (obj_properties "doc-b" Scenario.store)
    (_build_cmis_doc_properties Scenario.doc_B_renamed None)
  = {[ "zsdms:documentbeschrijving" := PStr "Een beschrijving" ]}.
Proof. vm_compute. done. Qed.

Lemma update_sends_changed_properties_witness :
  let current := obj_properties "doc-b" Scenario.store in
  let new := _build_cmis_doc_properties Scenario.doc_B_renamed None in
  let diff := diff_properties current new in
  new !! "cmis:objectTypeId" = Some (PStr "D:zsdms:document") ∧
  (∀ k v, diff !! k = Some v ↔ new !! k = Some v ∧ pyget current k ≠ v) ∧
  (diff = ∅ ↔ ∀ k v, new !! k = Some v → pyget current k = v) ∧
  update_zaakdocument Scenario.doc_B_renamed None None Scenario.store
    = (Ok (), doc_updateProperties_result "doc-b" diff Scenario.store).
Proof.
  intros current new diff.
  destruct (update_sends_changed_properties Scenario.doc_B_renamed None None
              "doc-b" Scenario.store) as (Htype & _ & _ & Hdiff & Hempty & _ & Hsent).
  - vm_compute. reflexivity.
  - split; [exact Htype|]. split; [exact Hdiff|]. split; [exact Hempty|].
    apply Hsent. reflexivity.
Defined.

(** C9 as stated fails: a document is created with a sender, which
    takes the place of its author in the repository; an update of the
    document, whose metadata has not changed, then sends its author,
    not an empty dictionary. *)
Lemma update_after_sender_override :
  let created :=
    maak_zaakdocument_met_inhoud Scenario.doc_P (Some "zaak-1") None (Some "jan")
      None None Scenario.authored in
  let r1 := w_repo created.2 in
  let diff :=
    diff_properties (obj_properties "doc4;1.0" r1)
      (_build_cmis_doc_properties Scenario.doc_P None) in
  created.1
    = Ok ("doc4;1.0",
          {| pk := Some 7; identificatie := "P"; titel := "P"; _object_id := "doc4";
             velden := velden Scenario.doc_P |}) ∧
  obj_properties "doc4;1.0" r1 !! "zsdms:documentauteur" = Some (PStr "jan") ∧
  _get_cmis_doc Scenario.doc_P None r1 = Ok "doc4;1.0" ∧
  diff = {[ "zsdms:documentauteur" := PStr "piet" ]} ∧
  diff ≠ ∅ ∧
  update_zaakdocument Scenario.doc_P None None r1
    = (Ok (), doc_updateProperties_result "doc4;1.0" diff r1).
Proof. vm_compute. repeat split; try done. Qed.

(** Locking on the scenario. *)
Example checkout_twice :
  let r1 := (checkout Scenario.doc_B Scenario.store).2 in
  (checkout Scenario.doc_B Scenario.store).1
    = Ok (PStr "doc-b;pwc", PStr "admin") ∧
  is_locked Scenario.doc_B r1 = Ok true ∧
  checkout Scenario.doc_B r1 = (Raise DocumentLockedException, r1) ∧
  is_locked Scenario.doc_B (cancel_checkout Scenario.doc_B (Some "doc-b;pwc") r1).2
    = Ok false ∧
  (cancel_checkout Scenario.doc_B (Some "other") r1).1
    = Raise DocumentConflictException.
Proof. vm_compute. done. Qed.

(** C8: on a repository whose checkin consumes the working copy it is
    called on.  After a checkout the document is locked and a second
    checkout raises [DocumentLockedException]; after [cancel_checkout]
    it is free.  An update under the checkout id makes its three calls
    and returns, but checks in the document itself and not the working
    copy: the document is still locked and a checkout still raises
    [DocumentLockedException], where a checkin of the working copy
    would have freed it. *)
Theorem checkin_keeps_document_locked :
  let r1 := (checkout Scenario.doc_B Scenario.store).2 in
  let r2 := (update_zaakdocument Scenario.doc_B (Some "doc-b;pwc") None r1).2 in
  (checkout Scenario.doc_B Scenario.store).1
    = Ok (PStr "doc-b;pwc", PStr "admin") ∧
  checkout Scenario.doc_B r1 = (Raise DocumentLockedException, r1) ∧
  is_locked Scenario.doc_B (cancel_checkout Scenario.doc_B (Some "doc-b;pwc") r1).2
    = Ok false ∧
  (update_zaakdocument Scenario.doc_B (Some "doc-b;pwc") None r1).1 = Ok () ∧
  mr_journal r2 = ["checkout"; "updateProperties"; "checkin"] ∧
  is_locked Scenario.doc_B r2 = Ok true ∧
  checkout Scenario.doc_B r2 = (Raise DocumentLockedException, r2) ∧
  is_locked Scenario.doc_B (doc_checkin "doc-b;pwc" r1) = Ok false.
Proof. vm_compute. repeat split; try done. Qed.

(** ** Strings *)

Lemma split_aux_length (sep : ascii) (s cur : string) :
  length (split_aux sep s cur) = S (count_char sep s).
Proof.
  revert cur. induction s as [|c s IH]; intros cur; [done|].
  simpl. destruct (Ascii.eqb c sep); simpl; by rewrite IH.
Qed.

Lemma index_minus2_short {A} (l : list A) :
  (length l < 2)%nat → index_minus2 l = Raise IndexError.
Proof.
  intros Hlen. unfold index_minus2.
  destruct (rev l) as [|x [|y l']] eqn:E; [done|done|].
  apply (f_equal length) in E. rewrite length_rev in E. simpl in E. lia.
Qed.

Lemma index_minus2_long {A} (l : list A) :
  (2 ≤ length l)%nat → ∃ x, index_minus2 l = Ok x.
Proof.
  intros Hlen. unfold index_minus2.
  destruct (rev l) as [|x [|y l']] eqn:E;
    [apply (f_equal length) in E; rewrite length_rev in E; simpl in E; lia ..|].
  by exists y.
Qed.

Section SyncExtras.
Context {R : Type} `{!Repository R} `{!Omgeving}.

(** X1: without a changelog token in the repository info, a run of
    either kind raises [ImproperlyConfigured]; the repository has only
    been reloaded and the database is untouched. *)
Theorem sync_token_missing (dryrun : bool) (w : world R) :
  repo_info (repo_reload (w_repo w)) !! "latestChangeLogToken" = None →
  sync dryrun w = (Raise ImproperlyConfigured, World (repo_reload (w_repo w)) (w_db w)).
Proof. intros Htok. unfold sync, atomic, sync_body. by rewrite Htok. Qed.

(** *** Repeated entries *)

Lemma process_entry_cached (dryrun : bool) (r : R) (s : loop_state) (e : ChangeEntry) :
  entry_key e ∈ ls_cache s → process_entry dryrun r s e = s.
Proof.
  intros Hin. unfold process_entry. fold (entry_key e).
  by rewrite bool_decide_eq_true_2.
Qed.

Lemma process_entry_cache (dryrun : bool) (r : R) (s : loop_state) (e : ChangeEntry) :
  ls_cache (process_entry dryrun r s e) = {[entry_key e]} ∪ ls_cache s.
Proof.
  unfold process_entry. fold (entry_key e).
  destruct (bool_decide (entry_key e ∈ ls_cache s)) eqn:E.
  - apply bool_decide_eq_true in E. apply set_eq. intros x.
    rewrite elem_of_union, elem_of_singleton. split; [tauto|].
    by intros [->|Hx].
  - by destruct (dispatch _ _ _ _ _ _) as [[c d]|x].
Qed.

Lemma foldl_process_entry_cache (dryrun : bool) (r : R) (l : list ChangeEntry)
    (s : loop_state) (e : ChangeEntry) :
  e ∈ l → entry_key e ∈ ls_cache (foldl (process_entry dryrun r) s l).
Proof.
  revert s. induction l as [|x l IH] using rev_ind; intros s Hin.
  - by apply elem_of_nil in Hin.
  - rewrite foldl_app. simpl. rewrite process_entry_cache.
    apply elem_of_app in Hin as [Hin|Hin].
    + apply elem_of_union_r. by apply IH.
    + apply list_elem_of_singleton in Hin as ->.
      by apply elem_of_union_l, elem_of_singleton.
Qed.

(** X2: an entry with the object id and change type of an earlier entry
    of the window has no effect at all: the loop ends in the state it
    reaches without it. *)
Theorem repeated_entry_skipped (dryrun : bool) (r : R) (s : loop_state)
    (l1 l2 : list ChangeEntry) (e e' : ChangeEntry) :
  e' ∈ l1 →
  entry_key e' = entry_key e →
  foldl (process_entry dryrun r) s (l1 ++ e :: l2)
  = foldl (process_entry dryrun r) s (l1 ++ l2).
Proof.
  intros Hin Hkey. rewrite !foldl_app. simpl. f_equal.
  apply process_entry_cached. rewrite <- Hkey.
  by apply foldl_process_entry_cache.
Qed.

(** *** Counters *)

Lemma dispatch_counters (dryrun : bool) (r : R) (change_type object_id : string)
    (c c' : counters) (d d' : database) :
  dispatch dryrun r change_type object_id c d = Ok (c', d') →
  c' = c ∨ c' = incr_created c ∨ c' = incr_updated c ∨ c' = incr_deleted c
  ∨ c' = incr_security c ∨ c' = incr_failed c.
Proof.
  unfold dispatch, update_cmis_properties. intros Hd.
  repeat case_match; try done; injection Hd as <- <-; tauto.
Qed.

Lemma process_entry_counters (dryrun : bool) (r : R) (s : loop_state) (e : ChangeEntry) :
  let c := ls_counters s in
  let c' := ls_counters (process_entry dryrun r s e) in
  c' = c ∨ c' = incr_created c ∨ c' = incr_updated c ∨ c' = incr_deleted c
  ∨ c' = incr_security c ∨ c' = incr_failed c.
Proof.
  unfold process_entry. simpl.
  destruct (bool_decide _); [tauto|].
  destruct (dispatch _ _ _ _ _ _) as [[c d]|x] eqn:E; simpl; [|tauto].
  by apply dispatch_counters in E.
Qed.

(** X3: over a whole window no counter ever decreases, and together the
    counters grow by at most the number of entries: an entry is counted
    once or not at all. *)
Theorem counters_bounded (dryrun : bool) (r : R) (l : list ChangeEntry)
    (s : loop_state) :
  let c := ls_counters s in
  let c' := ls_counters (foldl (process_entry dryrun r) s l) in
  created c ≤ created c' ∧ updated c ≤ updated c' ∧ deleted c ≤ deleted c' ∧
  security c ≤ security c' ∧ failed c ≤ failed c' ∧
  total c' ≤ total c + Z.of_nat (length l).
Proof.
  revert s. induction l as [|e l IH] using rev_ind; intros s; simpl.
  - unfold total. lia.
  - rewrite foldl_app, length_app. simpl.
    specialize (IH s). simpl in IH.
    pose proof (process_entry_counters dryrun r
                  (foldl (process_entry dryrun r) s l) e) as Hc.
    simpl in Hc. unfold total in *.
    destruct Hc as [-> | [-> | [-> | [-> | [-> | ->]]]]]; simpl; lia.
Qed.

(** *** One entry *)

(** X4: when [getObject] raises for a [created] or [updated] entry,
    whatever the exception, the entry counts as failed and nothing else
    changes. *)
Theorem process_entry_object_error (dryrun : bool) (r : R) (s : loop_state)
    (change_entry : ChangeEntry) (e : exn) :
  changeType change_entry = CMISChangeType.created
    ∨ changeType change_entry = CMISChangeType.updated →
  entry_key change_entry ∉ ls_cache s →
  repo_getObject (get_cmis_object_id (objectId change_entry)) r = Raise e →
  ls_counters (process_entry dryrun r s change_entry) = incr_failed (ls_counters s) ∧
  ls_db (process_entry dryrun r s change_entry) = ls_db s.
Proof.
  intros Htype Hfresh Hobj. unfold process_entry. fold (entry_key change_entry).
  rewrite bool_decide_eq_false_2 by done. unfold dispatch.
  assert (bool_decide (changeType change_entry = CMISChangeType.created)
          || bool_decide (changeType change_entry = CMISChangeType.updated) = true) as ->.
  { destruct Htype as [->| ->]; done. }
  rewrite Hobj. by destruct e.
Qed.

Lemma filter_none_keeps_all {A} (P : A → Prop) `{∀ x, Decision (P x)} (l : list A) :
  filter P l = [] → filter (λ x, ¬ P x) l = l.
Proof.
  induction l as [|x l IH]; [done|]. intros Hnil.
  destruct (decide (P x)) as [Hx|Hx].
  - by rewrite filter_cons_True in Hnil.
  - rewrite filter_cons_False in Hnil by done.
    rewrite filter_cons_True by done. f_equal. by apply IH.
Qed.

(** X5: a [deleted] entry of a non-dry run removes the local records
    with that object id and counts as deleted; when there is none it
    counts as failed and the database stays as it is. *)
Theorem process_entry_deleted (r : R) (s : loop_state) (change_entry : ChangeEntry) :
  changeType change_entry = CMISChangeType.deleted →
  entry_key change_entry ∉ ls_cache s →
  let object_id := get_cmis_object_id (objectId change_entry) in
  let s' := process_entry false r s change_entry in
  (filter (λ x, _object_id x = object_id) (documenten (ls_db s)) = [] →
     ls_counters s' = incr_failed (ls_counters s) ∧ ls_db s' = ls_db s) ∧
  (filter (λ x, _object_id x = object_id) (documenten (ls_db s)) ≠ [] →
     ls_counters s' = incr_deleted (ls_counters s) ∧
     changelogs (ls_db s') = changelogs (ls_db s) ∧
     documenten (ls_db s')
       = filter (λ x, _object_id x ≠ object_id) (documenten (ls_db s))).
Proof.
  intros Htype Hfresh object_id s'. subst s'. unfold process_entry.
  fold (entry_key change_entry). rewrite bool_decide_eq_false_2 by done.
  unfold dispatch. rewrite Htype. simpl. fold object_id. split.
  - intros Hnone. rewrite Hnone. simpl. split; [done|].
    rewrite (filter_none_keeps_all _ _ Hnone). by destruct (ls_db s).
  - intros Hsome.
    destruct (filter _ (documenten (ls_db s))) as [|x l]; [done|]. done.
Qed.

(** X6: a [created] entry for a document of the tracked type counts as
    created when its first path holds a [/], and as failed when the
    document has no path or its first path holds no [/]; the database
    is not touched. *)
Theorem process_entry_created (dryrun : bool) (r : R) (s : loop_state)
    (change_entry : ChangeEntry) (dms_document : cmis_object) :
  changeType change_entry = CMISChangeType.created →
  entry_key change_entry ∉ ls_cache s →
  repo_getObject (get_cmis_object_id (objectId change_entry)) r = Ok dms_document →
  pyget (obj_properties dms_document r) "cmis:objectTypeId" = PStr CMISObjectType_edc →
  let s' := process_entry dryrun r s change_entry in
  ls_db s' = ls_db s ∧
  ls_counters s' =
    match doc_getPaths dms_document r with
    | [] => incr_failed (ls_counters s)
    | path :: _ =>
        if decide (count_char "/" path = 0%nat) then incr_failed (ls_counters s)
        else incr_created (ls_counters s)
    end.
Proof.
  intros Htype Hfresh Hobj Hedc s'. subst s'. unfold process_entry.
  fold (entry_key change_entry). rewrite bool_decide_eq_false_2 by done.
  unfold dispatch. rewrite Htype. simpl. rewrite Hobj, Hedc.
  rewrite bool_decide_eq_true_2 by done.
  destruct (doc_getPaths dms_document r) as [|path paths]; [done|]. simpl.
  pose proof (split_aux_length "/" path EmptyString) as Hlen. fold (split "/" path) in Hlen.
  destruct (decide (count_char "/" path = 0%nat)) as [Hz|Hnz].
  - rewrite index_minus2_short by lia. done.
  - destruct (index_minus2_long (split "/" path)) as [x ->]; [lia|]. done.
Qed.

(** X7: an [updated] entry for a document of the tracked type.  Without
    a local record of its identification, or with several, it counts as
    failed and nothing changes.  With one record it counts as updated
    and, in a non-dry run, the record with the new field values is
    saved; when assigning the values raises, it counts as failed and
    nothing changes. *)
Theorem process_entry_updated (dryrun : bool) (r : R) (s : loop_state)
    (change_entry : ChangeEntry) (dms_document : cmis_object) :
  changeType change_entry = CMISChangeType.updated →
  entry_key change_entry ∉ ls_cache s →
  repo_getObject (get_cmis_object_id (objectId change_entry)) r = Ok dms_document →
  pyget (obj_properties dms_document r) "cmis:objectTypeId" = PStr CMISObjectType_edc →
  let s' := process_entry dryrun r s change_entry in
  let found :=
    filter (λ x, PStr (identificatie x)
                 = pyget (obj_properties dms_document r) "zsdms:documentIdentificatie")
      (documenten (ls_db s)) in
  match found with
  | [edc] =>
      match apply_cmis_properties (obj_properties dms_document r) edc with
      | Ok edc' =>
          ls_counters s' = incr_updated (ls_counters s) ∧
          ls_db s' = if dryrun then ls_db s else EIO_save edc' (ls_db s)
      | Raise _ =>
          ls_counters s' = incr_failed (ls_counters s) ∧ ls_db s' = ls_db s
      end
  | _ => ls_counters s' = incr_failed (ls_counters s) ∧ ls_db s' = ls_db s
  end.
Proof.
  intros Htype Hfresh Hobj Hedc s' found. subst s' found. unfold process_entry.
  fold (entry_key change_entry). rewrite bool_decide_eq_false_2 by done.
  unfold dispatch. rewrite Htype. simpl. rewrite Hobj, Hedc.
  rewrite bool_decide_eq_true_2 by done.
  unfold EIO_get, update_cmis_properties.
  destruct (filter _ (documenten (ls_db s))) as [|edc [|edc2 l]]; [done| |done].
  destruct (apply_cmis_properties _ edc) as [edc'|e]; [|done].
  by destruct dryrun.
Qed.

(** X8: in a non-dry run an entry whose change type is none of
    [created], [updated] and [deleted], so also one of the type
    [security], changes no counter and not the database: the branches
    that count it are under the dry-run arm of the [deleted] branch. *)
Theorem process_entry_other_change_type (r : R) (s : loop_state)
    (change_entry : ChangeEntry) :
  changeType change_entry ≠ CMISChangeType.created →
  changeType change_entry ≠ CMISChangeType.updated →
  changeType change_entry ≠ CMISChangeType.deleted →
  ls_counters (process_entry false r s change_entry) = ls_counters s ∧
  ls_db (process_entry false r s change_entry) = ls_db s.
Proof.
  intros Hc Hu Hd. unfold process_entry.
  destruct (bool_decide _); [done|]. unfold dispatch.
  by rewrite !bool_decide_eq_false_2 by done.
Qed.

(** *** Whole runs *)

(** With a run record in progress the body of a non-dry run raises and
    has restored the database itself. *)
Lemma sync_body_busy (w : world R) (token : Z) :
  repo_info (repo_reload (w_repo w)) !! "latestChangeLogToken" = Some token →
  ¬ no_run_in_progress (w_db w) →
  sync_body false w
  = (Raise (SyncException "A synchronization process is already running."),
     World (repo_reload (w_repo w)) (w_db w)).
Proof.
  intros Htok Hbusy. unfold sync_body. rewrite Htok. simpl negb. cbv iota.
  pose proof (ChangeLog_count_other_create token in_progress (w_db w)) as Hc.
  pose proof (ChangeLog_create_delete token (w_db w)) as Hd.
  destruct (ChangeLog_create token (w_db w)) as [c' d]. simpl in *.
  rewrite Hc, Hd. unfold no_run_in_progress in Hbusy.
  by destruct (filter _ (changelogs (w_db w))).
Qed.

(** X9: a non-dry run with an empty window returns, and leaves its own
    run record in progress; the next non-dry run therefore raises
    [SyncException] for a synchronisation that is already running. *)
Theorem sync_after_empty_window (w : world R) (token token' : Z) :
  repo_info (repo_reload (w_repo w)) !! "latestChangeLogToken" = Some token →
  no_run_in_progress (w_db w) →
  token - last_completed_token (w_db w) = 0 →
  let w1 := (sync false w).2 in
  repo_info (repo_reload (w_repo w1)) !! "latestChangeLogToken" = Some token' →
  (sync false w).1 = Ok (RDict []) ∧
  (sync false w1).1
    = Raise (SyncException "A synchronization process is already running.") ∧
  w_db (sync false w1).2 = w_db w1.
Proof.
  intros Htok Hfree Hzero w1 Htok'.
  pose proof (sync_zero_window_ledger w token Htok Hfree Hzero) as Hdb.
  fold w1 in Hdb. split.
  - unfold sync, atomic. rewrite (sync_body_free w token Htok Hfree). cbv zeta.
    by rewrite Hzero.
  - assert (¬ no_run_in_progress (w_db w1)) as Hbusy.
    { rewrite Hdb. unfold no_run_in_progress, ChangeLog_create. simpl.
      rewrite filter_app, filter_cons_True by done.
      intros Hnil. by apply app_eq_nil in Hnil as [_ ?]. }
    unfold sync, atomic. rewrite (sync_body_busy w1 token' Htok' Hbusy). done.
Qed.

(** X10: whatever the repository and the database hold, a run of either
    kind returns no counters, changes no local document and completes
    no run: the documents and the completed runs in the database are
    those from before the run. *)
Theorem sync_changes_no_record (dryrun : bool) (w : world R) :
  let w' := (sync dryrun w).2 in
  (∀ c, (sync dryrun w).1 ≠ Ok (counters_dict c)) ∧
  documenten (w_db w') = documenten (w_db w) ∧
  filter (λ x, cl_status x = completed) (changelogs (w_db w'))
  = filter (λ x, cl_status x = completed) (changelogs (w_db w)).
Proof.
  simpl.
  destruct (repo_info (repo_reload (w_repo w)) !! "latestChangeLogToken")
    as [token|] eqn:Htok.
  2: { unfold sync, atomic, sync_body. by rewrite Htok. }
  destruct dryrun.
  { by rewrite (sync_dryrun_returns_None w token Htok). }
  destruct (decide (no_run_in_progress (w_db w))) as [Hfree|Hbusy].
  2: { unfold sync, atomic. by rewrite (sync_body_busy w token Htok Hbusy). }
  unfold sync, atomic. rewrite (sync_body_free w token Htok Hfree). cbv zeta.
  destruct (_ <? 0)%Z; [done|].
  destruct (_ =? 0)%Z; [|done].
  split; [done|]. split; [done|]. simpl.
  rewrite filter_app, filter_cons_False by (simpl; congruence).
  by rewrite filter_nil, app_nil_r.
Qed.

End SyncExtras.

(** ** Documents and folders *)

Section DocumentExtras.
Context {R : Type} `{!Repository R} `{!RepositoryTree R} `{!Omgeving} `{!Mappen}.

(** X11: for a document that the query does not find, every method that
    works on an existing document raises [DocumentDoesNotExistError]
    and leaves the repository as it is. *)
Theorem missing_document_refused (document : EnkelvoudigInformatieObject) (r : R)
    (stream zaak_url : string) (content_type checkout_id : option string)
    (inhoud : option Inhoud) :
  repo_query (document_query (identificatie document)) r = [] →
  zet_inhoud document stream content_type checkout_id r
    = (Raise DocumentDoesNotExistError, r) ∧
  update_zaakdocument document checkout_id inhoud r
    = (Raise DocumentDoesNotExistError, r) ∧
  checkout document r = (Raise DocumentDoesNotExistError, r) ∧
  cancel_checkout document checkout_id r = (Raise DocumentDoesNotExistError, r) ∧
  is_locked document r = Raise DocumentDoesNotExistError ∧
  relateer_aan_zaak document zaak_url r = (Raise DocumentDoesNotExistError, r) ∧
  ontkoppel_zaakdocument document zaak_url r = (Raise DocumentDoesNotExistError, r) ∧
  verwijder_document document r = (Raise DocumentDoesNotExistError, r).
Proof.
  intros Hq.
  pose proof (_get_cmis_doc_missing document checkout_id r Hq) as Hid.
  pose proof (_get_cmis_doc_missing document None r Hq) as Hnone.
  unfold zet_inhoud, update_zaakdocument, checkout, cancel_checkout, is_locked,
    relateer_aan_zaak, ontkoppel_zaakdocument, verwijder_document.
  by rewrite Hid, Hnone.
Qed.

Lemma _get_cmis_doc_wrong_id (document : EnkelvoudigInformatieObject) (r : R)
    (h : cmis_object) (checkout_id : string) :
  _get_cmis_doc document None r = Ok h →
  wrong_checkout_id h checkout_id r →
  _get_cmis_doc document (Some checkout_id) r = Raise DocumentConflictException.
Proof.
  unfold _get_cmis_doc, wrong_checkout_id, pyindex. intros Hdoc Hwrong.
  destruct (repo_query _ r) as [|h0 l]; [done|].
  injection Hdoc as Hh. rewrite Hh.
  destruct (doc_getPrivateWorkingCopy h r) as [pwc|]; [|done].
  destruct Hwrong as (v & -> & Hne). by rewrite bool_decide_eq_false_2.
Qed.

(** X12: with a checkout id that does not belong to the working copy of
    the document, or without a working copy, setting the content,
    updating and cancelling the checkout raise
    [DocumentConflictException] and leave the repository as it is. *)
Theorem wrong_checkout_id_refused (document : EnkelvoudigInformatieObject) (r : R)
    (h : cmis_object) (checkout_id stream : string) (content_type : option string)
    (inhoud : option Inhoud) :
  _get_cmis_doc document None r = Ok h →
  wrong_checkout_id h checkout_id r →
  zet_inhoud document stream content_type (Some checkout_id) r
    = (Raise DocumentConflictException, r) ∧
  update_zaakdocument document (Some checkout_id) inhoud r
    = (Raise DocumentConflictException, r) ∧
  cancel_checkout document (Some checkout_id) r
    = (Raise DocumentConflictException, r).
Proof.
  intros Hdoc Hwrong.
  pose proof (_get_cmis_doc_wrong_id document r h checkout_id Hdoc Hwrong) as Hid.
  unfold zet_inhoud, update_zaakdocument, cancel_checkout. by rewrite Hid.
Qed.

(** X13: creating a document for a case whose folder cannot be resolved
    raises what the resolution raised ([ObjectNotFoundException] for a
    missing folder, [ValueError] for a level without a name) and writes
    neither to the repository nor to the database. *)
Theorem create_without_case_folder (document : EnkelvoudigInformatieObject)
    (zaak_url : string) (filename sender stream content_type : option string)
    (w : world R) (e : exn) :
  repo_query (document_query (identificatie document)) (w_repo w) = [] →
  _get_zaakfolder zaak_url (w_repo w) = Raise e →
  maak_zaakdocument_met_inhoud document (Some zaak_url) filename sender stream
    content_type w
  = (Raise e, w).
Proof.
  intros Hq Hfolder. unfold maak_zaakdocument_met_inhoud.
  rewrite (_get_cmis_doc_missing document None _ Hq), Hfolder.
  by destruct w.
Qed.

Lemma count_char_app (c : ascii) (s t : string) :
  count_char c (s +:+ t) = (count_char c s + count_char c t)%nat.
Proof. induction s as [|x s IH]; [done|]. simpl. rewrite IH. lia. Qed.

Lemma count_char_rev_app (c : ascii) (s t : string) :
  count_char c (String.rev_app s t) = (count_char c s + count_char c t)%nat.
Proof.
  revert t. induction s as [|x s IH]; intros t; [done|].
  simpl. rewrite IH. simpl. lia.
Qed.

Lemma split_aux_head (sep : ascii) (s cur x : string) (rest : list string) :
  count_char sep cur = 0%nat →
  split_aux sep s cur = x :: rest →
  count_char sep x = 0%nat.
Proof.
  revert cur. induction s as [|c s IH]; intros cur Hcur Hsplit; simpl in Hsplit.
  - injection Hsplit as <- _. unfold String.rev.
    rewrite count_char_rev_app, Hcur. done.
  - destruct (Ascii.eqb c sep) eqn:E.
    + injection Hsplit as <- _. unfold String.rev.
      rewrite count_char_rev_app, Hcur. done.
    + apply (IH (String c cur)); [|done]. simpl. by rewrite E, Hcur.
Qed.

Lemma rsplit_head_no_separator (s : string) : count_char ";" (rsplit_head s) = 0%nat.
Proof.
  unfold rsplit_head, split.
  destruct (split_aux ";" s "") as [|x rest] eqn:E.
  - pose proof (split_aux_length ";" s "") as Hlen. by rewrite E in Hlen.
  - by apply (split_aux_head ";" s "" x rest).
Qed.

Lemma same_but_object_id_set (k : Z) (oid : string)
    (rows : list EnkelvoudigInformatieObject) :
  same_but_object_id (Some k) rows
    ((λ y, if decide (pk y = Some k)
           then {| pk := pk y; identificatie := identificatie y; titel := titel y;
                   _object_id := oid; velden := velden y |}
           else y) <$> rows).
Proof.
  unfold same_but_object_id. induction rows as [|y rows IH]; [constructor|].
  rewrite fmap_cons. constructor; [|done].
  by destruct (decide (pk y = Some k)).
Qed.

(** X14: when a create call succeeds, the query had found no document;
    the returned instance is the given one with as [_object_id] the id
    of the created object up to its first [;], which holds no [;]; in
    the database the run records are untouched and the documents differ
    at most in the [_object_id] of the rows with the primary key of the
    instance. *)
Theorem create_result (document document' : EnkelvoudigInformatieObject)
    (zaak_url filename sender stream content_type : option string)
    (w w' : world R) (_doc : cmis_object) :
  maak_zaakdocument_met_inhoud document zaak_url filename sender stream
    content_type w
  = (Ok (_doc, document'), w') →
  repo_query (document_query (identificatie document)) (w_repo w) = [] ∧
  _object_id document' = rsplit_head (obj_getObjectId _doc (w_repo w')) ∧
  count_char ";" (_object_id document') = 0%nat ∧
  pk document' = pk document ∧ identificatie document' = identificatie document ∧
  titel document' = titel document ∧ velden document' = velden document ∧
  changelogs (w_db w') = changelogs (w_db w) ∧
  same_but_object_id (pk document) (documenten (w_db w)) (documenten (w_db w')).
Proof.
  unfold maak_zaakdocument_met_inhoud, save_object_id. intros Hcreate.
  assert (repo_query (document_query (identificatie document)) (w_repo w) = []) as Hq.
  { unfold _get_cmis_doc in Hcreate.
    by destruct (repo_query _ (w_repo w)). }
  rewrite (_get_cmis_doc_missing document None _ Hq) in Hcreate.
  split; [done|].
  repeat case_match; try done; simplify_eq; simpl.
  all: repeat split; try done; try apply rsplit_head_no_separator.
  all: apply same_but_object_id_set.
Qed.

(** X15: the difference is part of the new properties; laid over the
    current properties it gives, for every key of the new properties,
    the new value; and against the result nothing differs any more. *)
Theorem diff_properties_patch (current new : props) :
  let diff := diff_properties current new in
  diff ⊆ new ∧
  (∀ k v, new !! k = Some v → pyget (diff ∪ current) k = v) ∧
  diff_properties (diff ∪ current) new = ∅.
Proof.
  intros diff.
  assert (∀ k v, new !! k = Some v → pyget (diff ∪ current) k = v) as Hpatch.
  { intros k v Hk. unfold pyget. rewrite lookup_union.
    destruct (diff !! k) as [v'|] eqn:Hd.
    - apply diff_properties_lookup in Hd as [Hk' _].
      rewrite Hk in Hk'. injection Hk' as <-.
      by destruct (current !! k).
    - destruct (decide (pyget current k = v)) as [Heq|Hne].
      + unfold pyget in Heq. by destruct (current !! k).
      + assert (diff !! k = Some v) as Hd' by (by apply diff_properties_lookup).
        by rewrite Hd in Hd'. }
  split; [apply map_filter_subseteq|]. split; [done|].
  by apply diff_properties_unchanged.
Qed.

(** X20: a create call that gets as far as the case folder makes one
    [createDocument] call, under the title of the document and in that
    folder.  With a sender property configured, the properties it sends
    carry the sender under that key, whatever the document holds there;
    they carry the type [edc] and the file name, unless the sender
    property is that very key; every other key is as
    [get_cmis_properties] gave it. *)
Theorem create_sends_properties (document : EnkelvoudigInformatieObject)
    (zaak_url key : string) (filename sender stream content_type : option string)
    (w : world R) (zaakfolder : cmis_object) :
  repo_query (document_query (identificatie document)) (w_repo w) = [] →
  _get_zaakfolder zaak_url (w_repo w) = Ok zaakfolder →
  CMIS_SENDER_PROPERTY = Some key →
  ∃ properties : props,
    w_repo (maak_zaakdocument_met_inhoud document (Some zaak_url) filename sender
              stream content_type w).2
    = (repo_createDocument (titel document) properties (default "" stream)
         content_type zaakfolder (w_repo w)).2 ∧
    properties !! key = Some (pystr sender) ∧
    (key ≠ "cmis:objectTypeId" →
       properties !! "cmis:objectTypeId" = Some (PStr CMISObjectType_edc)) ∧
    (∀ f, filename = Some f → key ≠ "cmis:name" →
       properties !! "cmis:name" = Some (PStr f)) ∧
    (∀ k, k ≠ key → k ≠ "cmis:objectTypeId" → k ≠ "cmis:name" →
       properties !! k = get_cmis_properties document !! k).
Proof.
  intros Hq Hfolder Hkey.
  exists (<[key := pystr sender]> (_build_cmis_doc_properties document filename)).
  split; [|split; [|split; [|split]]].
  - unfold maak_zaakdocument_met_inhoud.
    rewrite (_get_cmis_doc_missing document None _ Hq), Hfolder, Hkey.
    destruct (repo_createDocument _ _ _ _ _ _) as [_doc r2]. simpl.
    by destruct (save_object_id _ _ _) as [[document' d']|e].
  - apply lookup_insert_eq.
  - intros Hne. rewrite lookup_insert_ne by done.
    unfold _build_cmis_doc_properties.
    destruct filename; [rewrite lookup_insert_ne by done|]; apply lookup_insert_eq.
  - intros f -> Hne. rewrite lookup_insert_ne by done. apply lookup_insert_eq.
  - intros k Hk Htype Hname. rewrite lookup_insert_ne by done.
    unfold _build_cmis_doc_properties.
    destruct filename; [rewrite lookup_insert_ne by done|];
      by rewrite lookup_insert_ne.
Qed.

(** *** Folders *)

Lemma filter_all_false {A} (P : A → Prop) `{∀ x, Decision (P x)} (l : list A) :
  (∀ x, x ∈ l → ¬ P x) → filter P l = [].
Proof.
  induction l as [|x l IH]; [done|]. intros Hall.
  rewrite filter_cons_False by (apply Hall, list_elem_of_here).
  apply IH. intros y Hy. by apply Hall, list_elem_of_further.
Qed.

(** X16: resolving a folder twice gives the same folder, and the second
    time nothing is created, provided a created folder appears as last
    child of its parent under the requested name and the children from
    before keep their names. *)
Theorem get_or_create_folder_twice (name : string) (properties properties' : option props)
    (parent : option cmis_object) (r : R) :
  let folder := default root_folder parent in
  (∀ f r',
     folder_createFolder folder name (default ∅ properties) r = (f, r') →
     folder_getChildren folder r' = folder_getChildren folder r ++ [f] ∧
     obj_name f r' = name ∧
     ∀ c, c ∈ folder_getChildren folder r → obj_name c r' = obj_name c r) →
  let first := _get_or_create_folder name properties parent r in
  _get_or_create_folder name properties' parent first.2
  = ((first.1.1, false), first.2).
Proof.
  intros folder Hcreate first. subst first. unfold _get_or_create_folder.
  fold folder.
  destruct (head (filter (λ child, obj_name child r = name)
                    (folder_getChildren folder r))) as [existing|] eqn:Hhead.
  - simpl. by rewrite Hhead.
  - destruct (folder_createFolder folder name (default ∅ properties) r)
      as [f r'] eqn:Hf.
    destruct (Hcreate f r' eq_refl) as (Hchildren & Hname & Hold). simpl.
    rewrite Hchildren, filter_app.
    apply head_None in Hhead.
    assert (filter (λ child, obj_name child r' = name) (folder_getChildren folder r)
            = []) as ->.
    { apply filter_all_false. intros c Hc. rewrite (Hold c Hc). intros Hn.
      by apply (filter_nil_not_elem_of _ _ c Hhead). }
    by rewrite filter_cons_True.
Qed.



(** X18: for a document that the repository holds, relating it to a
    case and detaching it from a case raise what the resolution of the
    case folder raised, and leave the repository as it is: no trash
    folder is made and nothing is moved.  Relating a document without a
    parent folder raises [IndexError]. *)
Theorem case_folder_unresolved (document : EnkelvoudigInformatieObject)
    (zaak_url : string) (r : R) (h : cmis_object) :
  _get_cmis_doc document None r = Ok h →
  (∀ e, _get_zaakfolder zaak_url r = Raise e →
     relateer_aan_zaak document zaak_url r = (Raise e, r) ∧
     ontkoppel_zaakdocument document zaak_url r = (Raise e, r)) ∧
  (∀ zaakfolder, _get_zaakfolder zaak_url r = Ok zaakfolder →
     doc_getObjectParents h r = [] →
     relateer_aan_zaak document zaak_url r = (Raise IndexError, r)).
Proof.
  intros Hdoc. unfold relateer_aan_zaak, ontkoppel_zaakdocument. rewrite Hdoc.
  split.
  - intros e ->. done.
  - intros zaakfolder -> ->. done.
Qed.

(** *** The download view *)

(** X19: the view answers [Http404] for a document without an object in
    the repository and for one whose object has no content stream; a
    response it gives never has an empty body, and carries the content
    stream of the document and its [cmis:name] in the disposition. *)
Theorem download_never_empty (document : EnkelvoudigInformatieObject) (r : R) :
  (repo_query (document_query (identificatie document)) r = [] →
     DownloadFileView_get document r = Http404) ∧
  (∀ doc filename,
     _get_cmis_doc document None r = Ok doc →
     obj_properties doc r !! "cmis:name" = Some filename →
     obj_properties doc r !! "cmis:contentStreamId" = Some PNone →
     DownloadFileView_get document r = Http404) ∧
  (∀ content content_type disposition,
     DownloadFileView_get document r = HttpResponse content content_type disposition →
     content ≠ "" ∧ content_type = "application/force-download" ∧
     ∃ doc filename,
       _get_cmis_doc document None r = Ok doc ∧
       obj_properties doc r !! "cmis:name" = Some filename ∧
       content = doc_getContentStream doc r ∧
       disposition = "attachment; filename=" +:+ smart_str filename +:+ ".bin").
Proof.
  unfold DownloadFileView_get. split; [|split].
  - intros Hq. unfold geef_inhoud. by rewrite (_get_cmis_doc_missing _ _ _ Hq).
  - intros doc filename Hdoc Hname Hid. unfold geef_inhoud, pyindex.
    by rewrite Hdoc, Hname, Hid.
  - intros content content_type disposition.
    unfold geef_inhoud, pyindex.
    destruct (_get_cmis_doc document None r) as [doc|e] eqn:Hdoc.
    + destruct (obj_properties doc r !! "cmis:name") as [filename|] eqn:Hname; [|done].
      destruct (obj_properties doc r !! "cmis:contentStreamId") as [v|]; [|done].
      destruct (bool_decide (v = PNone)); [done|].
      destruct (bool_decide (doc_getContentStream doc r ≠ "")) eqn:E; [|done].
      apply bool_decide_eq_true in E. intros [= <- <- <-].
      split; [done|]. split; [done|]. by exists doc, filename.
    + by destruct e.
Qed.

End DocumentExtras.

(** ** The further properties on the scenario *)

Lemma sync_token_missing_witness :
  sync true (World Scenario.store_without_token Scenario.local)
  = (Raise ImproperlyConfigured,
     World (repo_reload Scenario.store_without_token) Scenario.local).
Proof.
  apply (sync_token_missing true (World Scenario.store_without_token Scenario.local)).
  vm_compute. reflexivity.
Defined.

Lemma repeated_entry_skipped_witness :
  let s := LoopState zero_counters ∅ Scenario.local in
  foldl (process_entry false Scenario.store) s
    (Scenario.window ++ Scenario.entry "9" "created" "doc-a;2.0" :: [])
  = foldl (process_entry false Scenario.store) s (Scenario.window ++ []).
Proof.
  apply (repeated_entry_skipped false Scenario.store _ Scenario.window []
           (Scenario.entry "9" "created" "doc-a;2.0")
           (Scenario.entry "1" "created" "doc-a;1.0")).
  - apply list_elem_of_here.
  - vm_compute. reflexivity.
Defined.

Lemma process_entry_object_error_witness :
  let s := LoopState zero_counters ∅ Scenario.local in
  let change_entry := Scenario.entry "8" "created" "doc-x;1.0" in
  ls_counters (process_entry false Scenario.store s change_entry)
    = incr_failed zero_counters ∧
  ls_db (process_entry false Scenario.store s change_entry) = Scenario.local.
Proof.
  apply (process_entry_object_error false Scenario.store
           (LoopState zero_counters ∅ Scenario.local)
           (Scenario.entry "8" "created" "doc-x;1.0") ObjectNotFoundException).
  - left. reflexivity.
  - apply not_elem_of_empty.
  - vm_compute. reflexivity.
Defined.

Lemma process_entry_deleted_witness :
  let s := LoopState zero_counters ∅ Scenario.local in
  let s' := process_entry false Scenario.store s (Scenario.entry "4" "deleted" "doc-d;1.0") in
  ls_counters s' = incr_deleted zero_counters ∧
  changelogs (ls_db s') = [] ∧
  documenten (ls_db s')
    = filter (λ x, _object_id x ≠ "doc-d") (documenten Scenario.local).
Proof.
  destruct (process_entry_deleted Scenario.store
              (LoopState zero_counters ∅ Scenario.local)
              (Scenario.entry "4" "deleted" "doc-d;1.0")) as [_ Hfound].
  - reflexivity.
  - apply not_elem_of_empty.
  - apply Hfound. vm_compute. discriminate.
Defined.

Lemma process_entry_created_witness :
  let s := LoopState zero_counters ∅ Scenario.local in
  let s' := process_entry false Scenario.store s (Scenario.entry "1" "created" "doc-a;1.0") in
  ls_db s' = Scenario.local ∧ ls_counters s' = incr_created zero_counters.
Proof.
  unshelve epose proof
    (process_entry_created false Scenario.store
       (LoopState zero_counters ∅ Scenario.local)
       (Scenario.entry "1" "created" "doc-a;1.0") "doc-a" _ _ _ _) as Hcreated.
  - reflexivity.
  - apply not_elem_of_empty.
  - vm_compute. reflexivity.
  - vm_compute. reflexivity.
  - exact Hcreated.
Defined.

Lemma process_entry_updated_witness :
  let s := LoopState zero_counters ∅ Scenario.local in
  let s' := process_entry false Scenario.store s (Scenario.entry "2" "updated" "doc-b;1.1") in
  ls_counters s' = incr_updated zero_counters ∧
  ls_db s' = EIO_save (Scenario.applied_B) Scenario.local.
Proof.
  unshelve epose proof
    (process_entry_updated false Scenario.store
       (LoopState zero_counters ∅ Scenario.local)
       (Scenario.entry "2" "updated" "doc-b;1.1") "doc-b" _ _ _ _) as Hupdated.
  - reflexivity.
  - apply not_elem_of_empty.
  - vm_compute. reflexivity.
  - vm_compute. reflexivity.
  - exact Hupdated.
Defined.

Lemma process_entry_other_change_type_witness :
  let s := LoopState zero_counters ∅ Scenario.local in
  let change_entry := Scenario.entry "6" "security" "doc-a;1.0" in
  ls_counters (process_entry false Scenario.store s change_entry) = zero_counters ∧
  ls_db (process_entry false Scenario.store s change_entry) = Scenario.local.
Proof.
  apply (process_entry_other_change_type Scenario.store
           (LoopState zero_counters ∅ Scenario.local)
           (Scenario.entry "6" "security" "doc-a;1.0")); discriminate.
Defined.

Lemma sync_after_empty_window_witness :
  let w1 := (sync false Scenario.up_to_date).2 in
  (sync false Scenario.up_to_date).1 = Ok (RDict []) ∧
  (sync false w1).1
    = Raise (SyncException "A synchronization process is already running.") ∧
  w_db (sync false w1).2 = w_db w1.
Proof.
  apply (sync_after_empty_window Scenario.up_to_date 7 7); vm_compute; reflexivity.
Defined.

Lemma missing_document_refused_witness :
  let r := Scenario.store in
  zet_inhoud Scenario.doc_Z "x" None None r = (Raise DocumentDoesNotExistError, r) ∧
  update_zaakdocument Scenario.doc_Z None None r = (Raise DocumentDoesNotExistError, r) ∧
  checkout Scenario.doc_Z r = (Raise DocumentDoesNotExistError, r) ∧
  cancel_checkout Scenario.doc_Z None r = (Raise DocumentDoesNotExistError, r) ∧
  is_locked Scenario.doc_Z r = Raise DocumentDoesNotExistError ∧
  relateer_aan_zaak Scenario.doc_Z "zaak-1" r = (Raise DocumentDoesNotExistError, r) ∧
  ontkoppel_zaakdocument Scenario.doc_Z "zaak-1" r = (Raise DocumentDoesNotExistError, r) ∧
  verwijder_document Scenario.doc_Z r = (Raise DocumentDoesNotExistError, r).
Proof.
  apply (missing_document_refused Scenario.doc_Z Scenario.store "x" "zaak-1" None None None).
  vm_compute. reflexivity.
Defined.

Lemma wrong_checkout_id_refused_witness :
  let r := Scenario.store_locked in
  zet_inhoud Scenario.doc_B "x" None (Some "other") r
    = (Raise DocumentConflictException, r) ∧
  update_zaakdocument Scenario.doc_B (Some "other") None r
    = (Raise DocumentConflictException, r) ∧
  cancel_checkout Scenario.doc_B (Some "other") r
    = (Raise DocumentConflictException, r).
Proof.
  apply (wrong_checkout_id_refused Scenario.doc_B Scenario.store_locked "doc-b"
           "other" "x" None None).
  - vm_compute. reflexivity.
  - exists (PStr "doc-b;pwc"). split; [vm_compute; reflexivity|discriminate].
Defined.

Lemma create_without_case_folder_witness :
  maak_zaakdocument_met_inhoud Scenario.doc_Z (Some "zaak-9") None None None None
    Scenario.start
  = (Raise ObjectNotFoundException, Scenario.start).
Proof.
  apply (create_without_case_folder Scenario.doc_Z "zaak-9" None None None None
           Scenario.start ObjectNotFoundException); vm_compute; reflexivity.
Defined.

Lemma create_result_witness :
  let created := maak_zaakdocument_met_inhoud Scenario.doc_Z (Some "zaak-1") None
                   (Some "maykin") (Some "test") None Scenario.start in
  created.1 = Ok ("doc4;1.0", Scenario.record 9 "Z" "doc4") ∧
  count_char ";" "doc4" = 0%nat ∧
  changelogs (w_db created.2) = [] ∧
  same_but_object_id (Some 9) (documenten Scenario.local) (documenten (w_db created.2)).
Proof.
  intros created.
  assert (created = (Ok ("doc4;1.0", Scenario.record 9 "Z" "doc4"), created.2)) as Hc
    by (vm_compute; reflexivity).
  destruct (create_result _ _ _ _ _ _ _ _ _ _ Hc)
    as (_ & _ & Hsep & _ & _ & _ & _ & Hlogs & Hrows).
  split; [by rewrite Hc at 1|]. split; [exact Hsep|]. split; [exact Hlogs|exact Hrows].
Defined.

Lemma create_sends_properties_witness :
  ∃ properties : props,
    w_repo (maak_zaakdocument_met_inhoud Scenario.doc_Z (Some "zaak-1") (Some "z.txt")
              (Some "maykin") (Some "test") None Scenario.start).2
    = (repo_createDocument "Z" properties "test" None "zaak-1" Scenario.store).2 ∧
    properties !! "zsdms:documentauteur" = Some (PStr "maykin") ∧
    ("zsdms:documentauteur" ≠ "cmis:objectTypeId" →
       properties !! "cmis:objectTypeId" = Some (PStr "D:zsdms:document")) ∧
    (∀ f, Some "z.txt" = Some f → "zsdms:documentauteur" ≠ "cmis:name" →
       properties !! "cmis:name" = Some (PStr f)) ∧
    (∀ k, k ≠ "zsdms:documentauteur" → k ≠ "cmis:objectTypeId" → k ≠ "cmis:name" →
       properties !! k = get_cmis_properties Scenario.doc_Z !! k).
Proof.
  unshelve epose proof
    (create_sends_properties Scenario.doc_Z "zaak-1" "zsdms:documentauteur"
       (Some "z.txt") (Some "maykin") (Some "test") None Scenario.start "zaak-1"
       _ _ _) as Hsent.
  1-3: vm_compute; reflexivity.
  exact Hsent.
Defined.

Lemma get_or_create_folder_twice_witness :
  let first := _get_or_create_folder "_temp" None None Scenario.store in
  first.1.2 = true ∧
  _get_or_create_folder "_temp" (Some ∅) None first.2 = ((first.1.1, false), first.2).
Proof.
  split; [vm_compute; reflexivity|].
  apply (get_or_create_folder_twice "_temp" None (Some ∅) None Scenario.store).
  intros f r' [= <- <-]. split; [vm_compute; reflexivity|].
  split; [vm_compute; reflexivity|]. intros c Hc. vm_compute in Hc.
  by apply elem_of_nil in Hc.
Defined.


Lemma case_folder_unresolved_witness :
  relateer_aan_zaak Scenario.doc_B "zaak-9" Scenario.store
    = (Raise ObjectNotFoundException, Scenario.store) ∧
  ontkoppel_zaakdocument Scenario.doc_B "zaak-9" Scenario.store
    = (Raise ObjectNotFoundException, Scenario.store).
Proof.
  destruct (case_folder_unresolved Scenario.doc_B "zaak-9" Scenario.store "doc-b")
    as [Hmissing _].
  - vm_compute. reflexivity.
  - apply Hmissing. vm_compute. reflexivity.
Defined.

Lemma download_never_empty_witness :
  DownloadFileView_get Scenario.doc_Z Scenario.store = Http404 ∧
  DownloadFileView_get Scenario.doc_B Scenario.store = Http404 ∧
  DownloadFileView_get Scenario.doc_B Scenario.store_with_content
    = HttpResponse "some content" "application/force-download"
        "attachment; filename=B.bin".
Proof.
  split; [|split].
  - apply (download_never_empty Scenario.doc_Z Scenario.store).
    vm_compute. reflexivity.
  - apply (proj1 (proj2 (download_never_empty Scenario.doc_B Scenario.store))
             "doc-b" (PStr "B")); vm_compute; reflexivity.
  - vm_compute. reflexivity.
Defined.
